(** * Telecom ETL pipeline (intern_assessment/python_etl/telecom_etl.py)

    A shallow embedding of the four transform stages of the pipeline
    (clean_customer_data, deduplicate_usage_data, aggregate_billing_data,
    create_final_report) together with the properties of the stages.

    Conventions of the embedding.
    - A Python [str] is a [string]; each character is read as the code point
      of the same number (0..255).  The character classes of [str.isdigit]
      and [str.isspace] are the ones Python has on these code points.
    - A Python [float] is an IEEE binary64 number, [spec_float] with
      precision 53 and maximal exponent 1024.
    - A Python [dict] is an association list kept in insertion order.
    - A Python exception is the [Raise] case of [result].
    - Files are the values the code reads from them and writes to them:
      the rows of [csv.reader] / [csv.writer], the lines of [readlines],
      the chunks of successive [write] calls. *)

From Stdlib Require Import ZArith List String Ascii Bool Lia.
From Stdlib Require Import Floats.SpecFloat.
From Stdlib Require Import DecimalString.
From stdpp Require Import base option list strings gmap.

#[local] Set Warnings "-clear-no-such-hyp".

Open Scope string_scope.
Open Scope list_scope.
Open Scope nat_scope.

(** ** Python builtins *)

Module Py.

Inductive exn : Set := IndexError | ValueError | KeyError.

Inductive result (A : Type) : Type :=
| Ok (a : A)
| Raise (e : exn).
Arguments Ok {A} a.
Arguments Raise {A} e.

Definition bind {A B} (m : result A) (k : A -> result B) : result B :=
  match m with
  | Ok a => k a
  | Raise e => Raise e
  end.

(** [for x in xs: st = body(st, x)], stopping at the first exception. *)
Fixpoint for_each {A S} (body : S -> A -> result S) (xs : list A) (st : S)
  : result S :=
  match xs with
  | [] => Ok st
  | x :: rest => bind (body st x) (for_each body rest)
  end.

(** [[f(x) for x in xs]] for an [f] that may raise. *)
Fixpoint map_result {A B} (f : A -> result B) (xs : list A) : result (list B) :=
  match xs with
  | [] => Ok []
  | x :: rest =>
      bind (f x) (fun y => bind (map_result f rest) (fun ys => Ok (y :: ys)))
  end.

(** [xs[i]] for a non-negative index. *)
Definition index {A} (xs : list A) (i : nat) : result A :=
  match xs !! i with
  | Some x => Ok x
  | None => Raise IndexError
  end.

(** *** str *)

Definition code (c : ascii) : nat := nat_of_ascii c.

(** The code points below 256 on which [str.isdigit] holds: the decimal
    digits and the superscripts U+00B2, U+00B3 and U+00B9. *)
Definition isdigit_char (c : ascii) : bool :=
  let n := code c in
  ((48 <=? n) && (n <=? 57)) || (n =? 178) || (n =? 179) || (n =? 185).

Definition is_ascii_digit (c : ascii) : bool :=
  let n := code c in (48 <=? n) && (n <=? 57).

(** The code points below 256 on which [str.isspace] holds. *)
Definition isspace_char (c : ascii) : bool :=
  let n := code c in
  ((9 <=? n) && (n <=? 13)) || ((28 <=? n) && (n <=? 32))
  || (n =? 133) || (n =? 160).

Fixpoint all_chars (p : ascii -> bool) (s : string) : bool :=
  match s with
  | EmptyString => true
  | String c rest => p c && all_chars p rest
  end.

(** [s.isdigit()]: false on the empty string. *)
Definition isdigit (s : string) : bool :=
  match s with
  | EmptyString => false
  | _ => all_chars isdigit_char s
  end.

Definition len (s : string) : nat := String.length s.

(** [s[i:j]] for [0 <= i <= j]. *)
Definition slice (i j : nat) (s : string) : string := substring i (j - i) s.

Fixpoint lstrip (s : string) : string :=
  match s with
  | EmptyString => EmptyString
  | String c rest => if isspace_char c then lstrip rest else s
  end.

Fixpoint rstrip (s : string) : string :=
  match s with
  | EmptyString => EmptyString
  | String c rest =>
      match rstrip rest with
      | EmptyString => if isspace_char c then EmptyString else String c EmptyString
      | r => String c r
      end
  end.

(** [s.strip()] *)
Definition strip (s : string) : string := rstrip (lstrip s).

(** [s.split(sep)] for a one-character separator: never empty. *)
Fixpoint split (sep : ascii) (s : string) : list string :=
  match s with
  | EmptyString => [EmptyString]
  | String c rest =>
      if Ascii.eqb c sep then EmptyString :: split sep rest
      else match split sep rest with
           | [] => [String c EmptyString]
           | p :: ps => String c p :: ps
           end
  end.

(** [s.replace(old, '', 1)] for a one-character [old]. *)
Fixpoint remove_first (old : ascii) (s : string) : string :=
  match s with
  | EmptyString => EmptyString
  | String c rest => if Ascii.eqb c old then rest else String c (remove_first old rest)
  end.

(** [x in ("", "NULL")] *)
Definition is_null (x : string) : bool := String.eqb x "" || String.eqb x "NULL".

(** *** float *)

Definition float : Set := spec_float.
Definition prec : Z := 53.
Definition emax : Z := 1024.

Definition fadd : float -> float -> float := SFadd prec emax.
Definition fdiv : float -> float -> float := SFdiv prec emax.
Definition flt : float -> float -> bool := SFltb.
Definition fle : float -> float -> bool := SFleb.
Definition fzero : float := S754_zero false.

(** The conversion of an [int] operand of a float operation. *)
Definition float_of_int (n : Z) : float := binary_normalize prec emax n 0 false.

Definition is_nan (x : float) : bool :=
  match x with
  | S754_nan => true
  | _ => false
  end.

(** The floats added from the left, starting from 0.0, as a loop of
    [total = total + x] adds them. *)
Definition fsum (xs : list float) : float := fold_left fadd xs fzero.

(** [float(s)] on the strings of ASCII decimal digits, where it is the
    binary64 nearest to the integer written, and on "nan".  It stands in for
    [float] on the sample inputs, which hold no other amounts; on every other
    string it gives [None]. *)
Fixpoint digits_value (s : string) (acc : Z) : Z :=
  match s with
  | EmptyString => acc
  | String c rest => digits_value rest (10 * acc + (Z.of_nat (code c) - 48))%Z
  end.

Definition float_of_digits (s : string) : option float :=
  match s with
  | EmptyString => None
  | _ => if all_chars is_ascii_digit s
         then Some (float_of_int (digits_value s 0))
         else if String.eqb s "nan" then Some S754_nan else None
  end.

(** *** int and float mixed: the numbers of the script *)

Inductive num : Set :=
| Int (z : Z)
| Float (x : float).

Definition to_float (a : num) : float :=
  match a with
  | Int z => float_of_int z
  | Float x => x
  end.

(** [a + b] *)
Definition num_add (a b : num) : num :=
  match a, b with
  | Int x, Int y => Int (x + y)
  | _, _ => Float (fadd (to_float a) (to_float b))
  end.

(** [str(n)] of an int. *)
Definition str_of_int (z : Z) : string := NilZero.string_of_int (Z.to_int z).

(** The line feed. *)
Definition nl : string := String (ascii_of_nat 10) EmptyString.

(** *** dict, in insertion order *)

Definition dict (V : Type) : Type := list (string * V).

Fixpoint get {V} (d : dict V) (k : string) : option V :=
  match d with
  | [] => None
  | (k', v) :: rest => if String.eqb k k' then Some v else get rest k
  end.

(** [d[k] = v]: a present key keeps its place, a new one goes last. *)
Fixpoint set {V} (d : dict V) (k : string) (v : V) : dict V :=
  match d with
  | [] => [(k, v)]
  | (k', v') :: rest =>
      if String.eqb k k' then (k', v) :: rest else (k', v') :: set rest k v
  end.

(** [d.get(k, default)] *)
Definition get_default {V} (d : dict V) (k : string) (default : V) : V :=
  match get d k with
  | Some v => v
  | None => default
  end.

(** [d[k]] *)
Definition getitem {V} (d : dict V) (k : string) : result V :=
  match get d k with
  | Some v => Ok v
  | None => Raise KeyError
  end.

(** [k not in d or test(d[k])] *)
Definition absent_or {V} (d : dict V) (k : string) (test : V -> bool) : bool :=
  match get d k with
  | None => true
  | Some v => test v
  end.

(** [for k in d] *)
Definition keys {V} (d : dict V) : list string := map fst d.

End Py.

Import Py.

#[global] Instance result_bind : MBind result := fun A B k m => Py.bind m k.

(** ** Customer Cleanser: clean_customer_data *)

Definition row : Type := list string.

Definition out_header : row :=
  ["customer_id"; "name"; "phone"; "email"; "registration_date"; "status"; "credit_limit"].

(** [v if v not in ("", "NULL") else sentinel] *)
Definition or_default (v sentinel : string) : string :=
  if is_null v then sentinel else v.

(** [phone.isdigit() and len(phone) == 10] *)
Definition phone_ok (phone : string) : bool := isdigit phone && (len phone =? 10).

(** The date rewrite of the loop body. *)
Definition format_date (reg_date : string) : string :=
  if (len reg_date =? 8) && isdigit reg_date
  then slice 0 4 reg_date +:+ "-" +:+ slice 4 6 reg_date +:+ "-" +:+ slice 6 8 reg_date
  else reg_date.

Record clean_acc : Type := {
  cleaned_rows : list row;
  rejected_rows : list row
}.

(** One iteration of [for row in data]. *)
Definition clean_step (acc : clean_acc) (r : row) : result clean_acc :=
  match r with
  | [customer_id; name; phone; email; reg_date; status; credit_limit] =>
      let customer_id := or_default customer_id "UNKNOWN" in
      let name := or_default name "UNKNOWN_CUSTOMER" in
      let phone := or_default phone "0000000000" in
      let email := or_default email "noemail@unknown.com" in
      let reg_date := or_default reg_date "1900-01-01" in
      let status := or_default status "INACTIVE" in
      let credit_limit := or_default credit_limit "0" in
      if negb (phone_ok phone) then
        Ok {| cleaned_rows := cleaned_rows acc;
              rejected_rows := rejected_rows acc ++ [r] |}
      else
        let reg_date := format_date reg_date in
        Ok {| cleaned_rows :=
                cleaned_rows acc ++
                  [[customer_id; name; phone; email; reg_date; status; credit_limit]];
              rejected_rows := rejected_rows acc |}
  | _ => Raise ValueError
  end.

Record clean_result : Type := {
  output_file : list row;
  reject_file : option (list row);
  log_input : nat;
  log_output : nat;
  log_rejected : nat
}.

Definition clean_customer_data (rows : list row) : result clean_result :=
  match rows with
  | [] => Raise IndexError
  | header :: data =>
      acc ← for_each clean_step data {| cleaned_rows := []; rejected_rows := [] |};
      Ok {| output_file := out_header :: cleaned_rows acc;
            reject_file :=
              match rejected_rows acc with
              | [] => None
              | _ => Some (header :: rejected_rows acc)
              end;
            log_input := length data;
            log_output := length (cleaned_rows acc);
            log_rejected := length (rejected_rows acc) |}
  end.

(** ** Usage Deduplicator: deduplicate_usage_data *)

Record dedup_acc : Type := {
  seen : gset string;
  deduped : list string
}.

(** One iteration of [for line in lines]. *)
Definition dedup_step (acc : dedup_acc) (line : string) : dedup_acc :=
  if decide (line ∈ seen acc) then acc
  else {| seen := {[line]} ∪ seen acc; deduped := deduped acc ++ [line] |}.

Record dedup_result : Type := {
  usage_file : list string;
  input_count : Z;
  output_count : Z;
  duplicates_removed : Z
}.

Definition deduplicate_usage_data (lines : list string) : dedup_result :=
  let input_count := Z.of_nat (length lines) in
  let acc := fold_left dedup_step lines {| seen := ∅; deduped := [] |} in
  let output_count := Z.of_nat (length (deduped acc)) in
  {| usage_file := deduped acc;
     input_count := input_count;
     output_count := output_count;
     duplicates_removed := (input_count - output_count)%Z |}.

(** ** Billing Aggregator and Report Composer *)

Record billing_acc : Type := {
  totals : dict float;
  counts : dict nat;
  mins : dict float;
  maxs : dict float;
  last_dates : dict string
}.

Definition billing_init : billing_acc :=
  {| totals := []; counts := []; mins := []; maxs := []; last_dates := [] |}.

Record summary : Type := {
  cust_id : string;
  total_amount : float;
  avg_amount : num;
  record_count : nat;
  min_amount : float;
  max_amount : float;
  last_billing_date : string
}.

Record billing_result : Type := {
  summaries : list summary;
  billing_file : list string;
  log_customers : nat
}.

Definition billing_header : string :=
  "customer_id|total_amount|avg_amount|record_count|min_amount|max_amount|last_billing_date"
  +:+ nl.

Section Stages.

(** [float(s)]; [None] is its ValueError. *)
Variable float_of_str : string -> option float.
(** [str(x)] of a float, as an f-string field. *)
Variable str_of_float : float -> string.
(** [f"{x:.2f}"] of a float. *)
Variable format_2f : float -> string.

Definition parse_float (s : string) : result float :=
  match float_of_str s with
  | Some x => Ok x
  | None => Raise ValueError
  end.

Definition str_of_num (a : num) : string :=
  match a with
  | Int z => str_of_int z
  | Float x => str_of_float x
  end.

(** [line.strip().split("|")] *)
Definition billing_fields (line : string) : list string := split "|" (strip line).

(** One iteration of [for row in data]. *)
Definition billing_step (acc : billing_acc) (r : list string) : result billing_acc :=
  customer_id ← index r 0;
  field ← index r 1;
  amount ← (if negb (is_null field) then parse_float field else Ok fzero);
  billing_date ← index r 2;
  let totals := set (totals acc) customer_id
                  (fadd (get_default (totals acc) customer_id fzero) amount) in
  let counts := set (counts acc) customer_id
                  (get_default (counts acc) customer_id 0 + 1) in
  let mins := if absent_or (mins acc) customer_id (fun m => flt amount m)
              then set (mins acc) customer_id amount else mins acc in
  let maxs := if absent_or (maxs acc) customer_id (fun m => flt m amount)
              then set (maxs acc) customer_id amount else maxs acc in
  let last_dates :=
    if absent_or (last_dates acc) customer_id (fun d => String.ltb d billing_date)
    then set (last_dates acc) customer_id billing_date else last_dates acc in
  Ok {| totals := totals; counts := counts; mins := mins; maxs := maxs;
        last_dates := last_dates |}.

(** The body of [for cust_id in totals], up to the formatting. *)
Definition summarise (acc : billing_acc) (c : string) : result summary :=
  total ← getitem (totals acc) c;
  count ← getitem (counts acc) c;
  let avg := if 0 <? count
             then Float (fdiv total (float_of_int (Z.of_nat count)))
             else Int 0 in
  mn ← getitem (mins acc) c;
  mx ← getitem (maxs acc) c;
  ld ← getitem (last_dates acc) c;
  Ok {| cust_id := c; total_amount := total; avg_amount := avg;
        record_count := count; min_amount := mn; max_amount := mx;
        last_billing_date := ld |}.

(** The f-string written for one customer. *)
Definition summary_line (s : summary) : string :=
  cust_id s +:+ "|" +:+ str_of_float (total_amount s) +:+ "|"
  +:+ str_of_num (avg_amount s) +:+ "|"
  +:+ str_of_int (Z.of_nat (record_count s)) +:+ "|"
  +:+ str_of_float (min_amount s) +:+ "|" +:+ str_of_float (max_amount s) +:+ "|"
  +:+ last_billing_date s +:+ nl.

Definition aggregate_billing_data (lines : list string) : result billing_result :=
  match lines with
  | [] => Raise IndexError
  | header :: rest =>
      let data := map billing_fields rest in
      acc ← for_each billing_step data billing_init;
      sums ← map_result (summarise acc) (keys (totals acc));
      Ok {| summaries := sums;
            billing_file := billing_header :: map summary_line sums;
            log_customers := length (totals acc) |}
  end.

(** *** create_final_report *)

(** [xs[1:]] *)
Definition from_1 {A} (xs : list A) : list A := tail xs.

(** [sum(1 for row in rows if row[5] == "ACTIVE")] *)
Fixpoint count_active (rows : list row) : result Z :=
  match rows with
  | [] => Ok 0%Z
  | r :: rest =>
      status ← index r 5;
      n ← count_active rest;
      Ok (if String.eqb status "ACTIVE" then (1 + n)%Z else n)
  end.

Record usage_acc : Type := {
  total_data_usage : float;
  written : list string
}.

(** One iteration of [for line in data_lines]; the three writes of the
    usage block are statements of the loop body. *)
Definition usage_step (total_usage_records : nat) (acc : usage_acc) (line : string)
  : result usage_acc :=
  let parts := split "|" line in
  total ← (if (3 <=? length parts)
              && isdigit (remove_first "." (nth 2 parts ""))
           then x ← parse_float (nth 2 parts "");
                Ok (fadd (total_data_usage acc) x)
           else Ok (total_data_usage acc));
  Ok {| total_data_usage := total;
        written := written acc ++
          [ "USAGE DATA STATISTICS:" +:+ nl;
            "  - Total usage records: "
              +:+ str_of_int (Z.of_nat total_usage_records) +:+ nl;
            "  - Total data usage (MB): " +:+ str_of_float total +:+ nl +:+ nl ] |}.

(** The generator of line 247, [float(line.split('|')[1]) for line in lines]:
    the floats that [sum] is given, in order, or the first exception a line
    raises. *)
Definition revenue_terms (lines : list string) : result (list float) :=
  map_result (fun line => field ← index (split "|" line) 1; parse_float field) lines.

(** [sum(float(line.split('|')[1]) for line in lines)], with the terms added
    from the left to the start value 0, one rounding each, which is the [sum]
    of CPython up to 3.11.  From 3.12 on [sum] adds floats with a compensated
    summation, whose result may differ in the last bits once there are three
    terms or more; the terms are those of [revenue_terms] in every version. *)
Definition sum_revenue (lines : list string) : result num :=
  for_each (fun (acc : num) line =>
              field ← index (split "|" line) 1;
              x ← parse_float field;
              Ok (num_add acc (Float x)))
           lines (Int 0).

(** The chunks written to the report file, in order.  [now_title] and
    [now_footer] are the renderings of the clock read for the title line and
    for the last line. *)
Definition create_final_report (now_title now_footer : string)
    (customer_rows : list row) (usage_lines billing_lines : list string)
  : result (list string) :=
  let w0 := ["=== TELECOM DAILY ETL REPORT - " +:+ now_title +:+ " ===" +:+ nl +:+ nl] in
  let total_customers := (Z.of_nat (length customer_rows) - 1)%Z in
  active ← count_active (from_1 customer_rows);
  let w1 := w0 ++
    [ "CUSTOMER DATA STATISTICS:" +:+ nl;
      "  - Total customers processed: " +:+ str_of_int total_customers +:+ nl;
      "  - Active customers: " +:+ str_of_int active +:+ nl +:+ nl ] in
  let lines := map strip usage_lines in
  let data_lines := from_1 lines in
  let total_usage_records := length data_lines in
  u ← for_each (usage_step total_usage_records) data_lines
        {| total_data_usage := fzero; written := w1 |};
  let w2 := written u in
  let total_billing_customers := (Z.of_nat (length billing_lines) - 1)%Z in
  total_revenue ← sum_revenue (from_1 billing_lines);
  Ok (w2 ++
    [ "BILLING DATA STATISTICS:" +:+ nl;
      "  - Customers with billing: " +:+ str_of_int total_billing_customers +:+ nl;
      "  - Total revenue: " +:+ format_2f (to_float total_revenue) +:+ nl +:+ nl;
      "PROCESSING SUMMARY:" +:+ nl;
      "  - Script: telecom_etl_pipeline (Python version)" +:+ nl;
      "  - Status: SUCCESS" +:+ nl;
      "  - Report generated at: " +:+ now_footer +:+ nl ]).

End Stages.

(** ** Text files: the lines read and written *)

Definition LF : ascii := ascii_of_nat 10.
Definition CR : ascii := ascii_of_nat 13.

(** What a file opened with [open(path, "r")] hands over: every "\r\n" and
    every other "\r" of the stored text has become "\n". *)
Fixpoint universal_newlines (text : string) : string :=
  match text with
  | EmptyString => EmptyString
  | String c rest =>
      if Ascii.eqb c CR then
        String LF
          match rest with
          | String c' rest' =>
              if Ascii.eqb c' LF then universal_newlines rest'
              else universal_newlines rest
          | EmptyString => EmptyString
          end
      else String c (universal_newlines rest)
  end.

(** The lines of a text, each with its line feed; a last line without one
    is a line too. *)
Fixpoint lines_of (text : string) : list string :=
  match text with
  | EmptyString => []
  | String c rest =>
      if Ascii.eqb c LF then String c EmptyString :: lines_of rest
      else match lines_of rest with
           | [] => [String c EmptyString]
           | l :: ls => String c l :: ls
           end
  end.

(** [f.readlines()] of a file opened with [open(path, "r")]. *)
Definition readlines (stored : string) : list string :=
  lines_of (universal_newlines stored).

(** What [f.writelines(lines)] stores through [open(path, "w")], where the
    line separator of the system is "\n". *)
Definition writelines (lines : list string) : string := String.concat "" lines.

(** ** The log, the input files, the validator and main *)

Inductive level : Set := INFO | ERROR.

(** A line of the log without its time stamp: the arguments of one call of
    [log_message]. *)
Definition log_entry : Type := level * string.

(** What the file system holds under a path: nothing, a file that the process
    may not read, or a file it may read.  Directories and other entries that
    are no regular files are left out. *)
Inductive file (A : Type) : Type :=
| Missing
| Unreadable
| Readable (content : A).
Arguments Missing {A}.
Arguments Unreadable {A}.
Arguments Readable {A} content.

(** [os.path.exists(path)] and [os.access(path, os.R_OK)]. *)
Definition file_exists {A} (f : file A) : bool :=
  match f with
  | Missing => false
  | _ => true
  end.

Definition file_access {A} (f : file A) : bool :=
  match f with
  | Readable _ => true
  | _ => false
  end.

(** The exceptions that end a run: those of the validator and of [open],
    with their message, and those raised inside a stage. *)
Inductive failure : Set :=
| FileNotFoundError (message : string)
| PermissionError (message : string)
| Raised (e : exn).

Inductive outcome (A : Type) : Type :=
| Done (a : A)
| Failed (f : failure).
Arguments Done {A} a.
Arguments Failed {A} f.

(** A step of the script: the log entries it writes and how it ends. *)
Definition logged (A : Type) : Type := list log_entry * outcome A.

Definition and_then {A B} (m : logged A) (k : A -> logged B) : logged B :=
  match m with
  | (log, Done a) => (log ++ fst (k a), snd (k a))
  | (log, Failed f) => (log, Failed f)
  end.

#[global] Instance logged_bind : MBind logged := fun A B k m => and_then m k.

Definition log_message (l : level) (message : string) : logged unit :=
  ([(l, message)], Done tt).

Definition raise {A} (f : failure) : logged A := ([], Failed f).

Definition finish {A} (a : A) : logged A := ([], Done a).

(** A stage function run inside the script. *)
Definition of_result {A} (r : result A) : logged A :=
  match r with
  | Ok a => finish a
  | Raise e => raise (Raised e)
  end.

(** [open(path, "r")] with what is read from the file. *)
Definition open_read {A} (path : string) (f : file A) : logged A :=
  match f with
  | Readable content => finish content
  | Missing =>
      raise (FileNotFoundError
               ("[Errno 2] No such file or directory: '" +:+ path +:+ "'"))
  | Unreadable =>
      raise (PermissionError ("[Errno 13] Permission denied: '" +:+ path +:+ "'"))
  end.

(** [os.path.join(dir, name)] of [posixpath]. *)
Definition starts_with_slash (s : string) : bool :=
  match s with
  | String c _ => Ascii.eqb c "/"
  | EmptyString => false
  end.

Fixpoint ends_with_slash (s : string) : bool :=
  match s with
  | EmptyString => false
  | String c EmptyString => Ascii.eqb c "/"
  | String _ rest => ends_with_slash rest
  end.

Definition path_join (dir name : string) : string :=
  if starts_with_slash name then name
  else if String.eqb dir "" || ends_with_slash dir then dir +:+ name
  else dir +:+ "/" +:+ name.

(** The three input files: the rows [csv.reader] finds in the customer file,
    the stored text of the usage file and of the billing file. *)
Record inputs : Type := {
  customer_data : file (list row);
  usage_data : file string;
  billing_records : file string
}.

(** The files a complete run leaves in the scratch and output directories. *)
Record outputs : Type := {
  customer_data_cleaned : list row;
  customer_data_rejected : option (list row);
  usage_data_deduped : string;
  billing_aggregated : string;
  telecom_daily_report : string
}.

(** The body of [for file in required_files]. *)
Fixpoint validate_loop (files : list (string * file unit)) : logged unit :=
  match files with
  | [] => finish tt
  | (path, f) :: rest =>
      if negb (file_exists f) then
        _ ← log_message ERROR ("Required file not found: " +:+ path);
        raise (FileNotFoundError ("Missing input file: " +:+ path))
      else if negb (file_access f) then
        _ ← log_message ERROR ("File not readable: " +:+ path);
        raise (PermissionError ("Cannot read file: " +:+ path))
      else
        _ ← log_message INFO ("Validated file: " +:+ path);
        validate_loop rest
  end.

(** The file without its content. *)
Definition presence {A} (f : file A) : file unit :=
  match f with
  | Missing => Missing
  | Unreadable => Unreadable
  | Readable _ => Readable tt
  end.

Section Script.

(** The directory of the script and the renderings of the clock: in the
    title and in the last line of the report, and the day in the name of the
    report file. *)
Variable SCRIPT_DIR : string.
Variables now_title now_footer today : string.
Variable float_of_str : string -> option float.
Variable str_of_float : float -> string.
Variable format_2f : float -> string.

Definition DATA_DIR : string := path_join SCRIPT_DIR "sample_data".
Definition TEMP_DIR : string := path_join SCRIPT_DIR "temp".
Definition OUTPUT_DIR : string := path_join SCRIPT_DIR "output".

Definition required_files (inp : inputs) : list (string * file unit) :=
  [ (path_join DATA_DIR "customer_data.csv", presence (customer_data inp));
    (path_join DATA_DIR "usage_data.txt", presence (usage_data inp));
    (path_join DATA_DIR "billing_records.txt", presence (billing_records inp)) ].

Definition validate_input_files (inp : inputs) : logged unit :=
  _ ← log_message INFO "Validating input files...";
  _ ← validate_loop (required_files inp);
  log_message INFO "All input files validated successfully".

(** The stage functions with their file accesses and log entries. *)
Definition run_clean_customer_data (inp : inputs) : logged clean_result :=
  _ ← log_message INFO "Starting customer data cleaning process";
  rows ← open_read (path_join DATA_DIR "customer_data.csv") (customer_data inp);
  res ← of_result (clean_customer_data rows);
  _ ← log_message INFO
        ("Customer data cleaning completed - "
         +:+ "Input: " +:+ str_of_int (Z.of_nat (log_input res)) +:+ ", "
         +:+ "Output: " +:+ str_of_int (Z.of_nat (log_output res)) +:+ ", "
         +:+ "Rejected: " +:+ str_of_int (Z.of_nat (log_rejected res)));
  finish res.

Definition run_deduplicate_usage_data (inp : inputs) : logged dedup_result :=
  _ ← log_message INFO "Starting usage data deduplication";
  stored ← open_read (path_join DATA_DIR "usage_data.txt") (usage_data inp);
  let res := deduplicate_usage_data (readlines stored) in
  _ ← log_message INFO
        ("Deduplication completed - Removed "
         +:+ str_of_int (duplicates_removed res) +:+ " duplicates");
  _ ← log_message INFO ("Final usage records: " +:+ str_of_int (output_count res));
  finish res.

Definition run_aggregate_billing_data (inp : inputs) : logged billing_result :=
  _ ← log_message INFO "Starting billing data aggregation";
  stored ← open_read (path_join DATA_DIR "billing_records.txt") (billing_records inp);
  res ← of_result
          (aggregate_billing_data float_of_str str_of_float (readlines stored));
  _ ← log_message INFO
        ("Billing aggregation completed for "
         +:+ str_of_int (Z.of_nat (log_customers res)) +:+ " customers");
  finish res.

(** The report is made from the files the three stages before it have left
    in the scratch directory: the rows written by [csv.writer] read again by
    [csv.reader], the two texts read again by [readlines]. *)
Definition run_create_final_report
    (cleaned : list row) (deduped aggregated : string) : logged (list string) :=
  _ ← log_message INFO "Creating final consolidated report";
  report ← of_result
             (create_final_report float_of_str str_of_float format_2f
                now_title now_footer
                cleaned (readlines deduped) (readlines aggregated));
  _ ← log_message INFO
        ("Final report created: "
         +:+ path_join OUTPUT_DIR ("telecom_daily_report_" +:+ today +:+ ".txt"));
  finish report.

Definition main (inp : inputs) : logged outputs :=
  _ ← log_message INFO "Starting Python ETL pipeline";
  _ ← validate_input_files inp;
  c ← run_clean_customer_data inp;
  d ← run_deduplicate_usage_data inp;
  b ← run_aggregate_billing_data inp;
  let deduped := writelines (usage_file d) in
  let aggregated := writelines (billing_file b) in
  report ← run_create_final_report (output_file c) deduped aggregated;
  _ ← log_message INFO "ETL pipeline completed";
  finish {| customer_data_cleaned := output_file c;
            customer_data_rejected := reject_file c;
            usage_data_deduped := deduped;
            billing_aggregated := aggregated;
            telecom_daily_report := writelines report |}.

End Script.

(** ** Vocabulary of the statements *)

(** The phone of a data row as the validation sees it. *)
Definition phone_seen (r : row) : string := or_default (nth 2 r "") "0000000000".

(** The data row passes the phone validation. *)
Definition row_valid (r : row) : bool := phone_ok (phone_seen r).

(** The cleaned form of a data row of seven fields. *)
Definition clean_row (r : row) : row :=
  [ or_default (nth 0 r "") "UNKNOWN";
    or_default (nth 1 r "") "UNKNOWN_CUSTOMER";
    phone_seen r;
    or_default (nth 3 r "") "noemail@unknown.com";
    format_date (or_default (nth 4 r "") "1900-01-01");
    or_default (nth 5 r "") "INACTIVE";
    or_default (nth 6 r "") "0" ].

(** The data rows of the cleaned file and of the reject file (none when the
    file is not written). *)
Definition cleaned_data (res : clean_result) : list row := tail (output_file res).

Definition rejected_data (res : clean_result) : list row :=
  match reject_file res with
  | Some f => tail f
  | None => []
  end.

(** Exactly ten characters, each of '0'..'9'. *)
Definition ten_ascii_digits (s : string) : bool :=
  (len s =? 10) && all_chars is_ascii_digit s.

(** Every character is below 128. *)
Definition is_ascii_text (s : string) : bool := all_chars (fun c => code c <? 128) s.

(** Ten times the superscript two, U+00B2. *)
Definition superscript_phone : string :=
  string_of_list_ascii (replicate 10 (ascii_of_nat 178)).

(** Sample customer files: the header and two or three data rows. *)
Definition sample_customers : list row :=
  [ out_header;
    ["C1"; "Alice"; ""; "a@x.com"; "20240101"; "ACTIVE"; "500"];
    ["C2"; "Bob"; "12345"; "NULL"; "2024-02-03"; ""; "NULL"];
    ["C3"; "Carol"; "9876543210"; "c@x.com"; "03/02/2024"; "ACTIVE"; "10"] ].

Definition superscript_customers : list row :=
  [ out_header;
    ["C9"; "Zed"; superscript_phone; "z@x.com"; "20240101"; "ACTIVE"; "1"] ].

(** Each distinct element once, at the place of its first occurrence. *)
Fixpoint first_occurrences (l : list string) : list string :=
  match l with
  | [] => []
  | x :: rest => x :: filter (fun y => y <> x) (first_occurrences rest)
  end.

(** The best element of a run of values under [better]: the first one,
    replaced each time a later one is better than the best so far. *)
Definition running_best {X} (better : X -> X -> bool) (xs : list X) : option X :=
  match xs with
  | [] => None
  | x :: rest => Some (fold_left (fun m a => if better a m then a else m) rest x)
  end.

Definition sum_nat (ns : list nat) : nat := fold_right Nat.add 0 ns.

(** [d[key(r)] = f(d.get(key(r)), r)]: the shape of every dict update of the
    aggregation loop. *)
Definition upsert {V R} (key : R -> string) (f : option V -> R -> V)
    (d : dict V) (r : R) : dict V :=
  set d (key r) (f (get d (key r)) r).

(** The value kept for a key by [if k not in d or better(a, d[k]): d[k] = a]. *)
Definition keep {X} (better : X -> X -> bool) (o : option X) (a : X) : X :=
  match o with
  | None => a
  | Some m => if better a m then a else m
  end.

(** How often a chunk was written. *)
Definition times_written (chunk : string) (chunks : list string) : nat :=
  length (filter (fun c => c = chunk) chunks).

Section BillingVocabulary.

Variable float_of_str : string -> option float.

(** The three fields of a split billing row. *)
Definition row_customer (r : list string) : string := nth 0 r "".
Definition row_date (r : list string) : string := nth 2 r "".

(** The amount of a split billing row: 0.0 for an empty or "NULL" field,
    the parsed number otherwise, NaN where the field does not parse. *)
Definition row_amount (r : list string) : float :=
  let field := nth 1 r "" in
  if is_null field then fzero
  else match float_of_str field with
       | Some x => x
       | None => S754_nan
       end.

(** A billing row of at least three fields whose amount is empty, "NULL",
    or parses to a number. *)
Definition billing_row_ok (r : list string) : bool :=
  (3 <=? length r) && negb (is_nan (row_amount r)).

(** The rows of one customer, in input order. *)
Definition rows_of (c : string) (data : list (list string)) : list (list string) :=
  filter (fun r => row_customer r = c) data.

(** The loop body on a row that parses, as five dict updates. *)
Definition billing_update (acc : billing_acc) (r : list string) : billing_acc :=
  {| totals := upsert row_customer
                 (fun o r => fadd (default fzero o) (row_amount r)) (totals acc) r;
     counts := upsert row_customer (fun o _ => default 0 o + 1) (counts acc) r;
     mins := upsert row_customer (fun o r => keep flt o (row_amount r)) (mins acc) r;
     maxs := upsert row_customer
               (fun o r => keep (fun a m => flt m a) o (row_amount r)) (maxs acc) r;
     last_dates := upsert row_customer
                     (fun o r => keep (fun b l => String.ltb l b) o (row_date r))
                     (last_dates acc) r |}.

(** The summary of a customer computed from the rows of that customer. *)
Definition summary_of_rows (data : list (list string)) (c : string) : summary :=
  let mine := rows_of c data in
  let amounts := map row_amount mine in
  {| cust_id := c;
     total_amount := fsum amounts;
     avg_amount := Float (fdiv (fsum amounts) (float_of_int (Z.of_nat (length mine))));
     record_count := length mine;
     min_amount := default fzero (running_best flt amounts);
     max_amount := default fzero (running_best (fun a m => flt m a) amounts);
     last_billing_date :=
       default "" (running_best (fun d l => String.ltb l d) (map row_date mine)) |}.

End BillingVocabulary.

(** Sample billing file: scenario D of the specification and a second
    customer in between. *)
Definition sample_billing : list string :=
  [ "customer_id|amount|billing_date" +:+ nl;
    "C1|10|2024-01-05" +:+ nl;
    "C2|NULL|2024-03-01" +:+ nl;
    "C1|20|2024-01-10" +:+ nl ].

(** The heading chunks of the four sections of the report. *)
Definition customer_heading : string := "CUSTOMER DATA STATISTICS:" +:+ nl.
Definition usage_heading : string := "USAGE DATA STATISTICS:" +:+ nl.
Definition billing_heading : string := "BILLING DATA STATISTICS:" +:+ nl.
Definition summary_heading : string := "PROCESSING SUMMARY:" +:+ nl.

(** Sample deduplicated usage files: the header line alone, and the header
    line with two data lines. *)
Definition usage_header_only : list string :=
  [ "customer_id|usage_date|data_usage_mb" +:+ nl ].

Definition usage_two_lines : list string :=
  [ "customer_id|usage_date|data_usage_mb" +:+ nl;
    "C1|2024-01-05|10" +:+ nl;
    "C2|2024-01-06|20" +:+ nl ].

Section BillingOutcome.

Variable float_of_str : string -> option float.

(** The amount field is empty, "NULL", or accepted by [float]. *)
Definition amount_parses (field : string) : bool :=
  is_null field
  || match float_of_str field with
     | Some _ => true
     | None => false
     end.

(** The exception a split billing row makes the loop body raise, if any:
    IndexError at [row[1]], ValueError at [float(row[1])], IndexError at
    [row[2]], looked at in this order. *)
Definition billing_row_error (r : list string) : option exn :=
  match r with
  | [] | [_] => Some IndexError
  | _ :: field :: rest =>
      if negb (amount_parses field) then Some ValueError
      else match rest with
           | [] => Some IndexError
           | _ => None
           end
  end.

End BillingOutcome.

(** The guard of the usage loop: the line has a third field that, its first
    '.' taken out, is all digits. *)
Definition usage_counted (line : string) : bool :=
  let parts := split "|" line in
  (3 <=? length parts) && isdigit (remove_first "." (nth 2 parts "")).

(** The third field of a usage line. *)
Definition usage_field (line : string) : string := nth 2 (split "|" line) "".

(** No line feed and no carriage return in the string. *)
Definition no_line_end (s : string) : bool :=
  all_chars (fun c => negb (Ascii.eqb c LF) && negb (Ascii.eqb c CR)) s.

(** A line that ends in its line feed and holds no other line end. *)
Definition terminated (line : string) : Prop :=
  exists body, no_line_end body = true /\ line = body +:+ nl.

(** The shape of what [readlines] gives: lines that end in their line feed,
    but for a last one that may lack it and is not empty then. *)
Definition file_lines (lines : list string) : Prop :=
  exists init rest,
    lines = init ++ rest
    /\ Forall terminated init
    /\ (rest = [] \/ exists z, rest = [z] /\ no_line_end z = true /\ z <> "").

(** Sample inputs of a whole run: the sample files, all three readable. *)
Definition sample_inputs : inputs :=
  {| customer_data := Readable sample_customers;
     usage_data := Readable (writelines usage_two_lines);
     billing_records := Readable (writelines sample_billing) |}.

(** All three input files are there and may be read. *)
Definition all_readable (inp : inputs) : bool :=
  file_access (customer_data inp) && file_access (usage_data inp)
  && file_access (billing_records inp).

(** The character does not occur in the string. *)
(** The value of a float that is a whole number and not negative; 0 on the
    others. *)
Definition whole_of_float (x : float) : Z :=
  match x with
  | S754_finite false m e =>
      if (0 <=? e)%Z then (Z.pos m * 2 ^ e)%Z else (Z.pos m / 2 ^ (- e))%Z
  | _ => 0%Z
  end.

(** A printer for the sample totals, which are whole and not negative: their
    decimal digits, the text that [float_of_digits] reads.  It stands in for
    [str] of a float on the sample inputs. *)
Definition digits_of_float (x : float) : string := str_of_int (whole_of_float x).

(** A billing file of three customers, with the totals 30, 0 and 5. *)
Definition three_customers_billing : list string :=
  [ "C1|10|2024-01-05"; "C2|NULL|2024-03-01"; "C1|20|2024-01-10"; "C3|5|2024-02-02" ].

Definition free_of (c : ascii) (s : string) : bool :=
  all_chars (fun x => negb (Ascii.eqb x c)) s.

(** ** Facts about lists *)

Section ListFacts.

Context {A : Type} (P : A -> Prop) `{!forall x, Decision (P x)}.

Lemma filter_all l : Forall P l -> filter P l = l.
Proof.
  induction 1 as [|x l Hx _ IH]; [done|].
  rewrite filter_cons_True by done. by rewrite IH.
Qed.

Lemma filter_none l : Forall (fun x => ~ P x) l -> filter P l = [].
Proof.
  induction 1 as [|x l Hx _ IH]; [done|].
  by rewrite filter_cons_False.
Qed.

End ListFacts.

(** ** Properties of the Customer Cleanser *)

Section Cleanser.

Implicit Types (r : row) (data : list row) (acc : clean_acc).

Lemma clean_step_seven acc r :
  length r = 7 ->
  clean_step acc r =
    Ok (if row_valid r
        then {| cleaned_rows := cleaned_rows acc ++ [clean_row r];
                rejected_rows := rejected_rows acc |}
        else {| cleaned_rows := cleaned_rows acc;
                rejected_rows := rejected_rows acc ++ [r] |}).
Proof.
  intros Hlen.
  do 8 (destruct r as [|? r]; try discriminate Hlen).
  unfold clean_step, row_valid, clean_row, phone_seen; simpl.
  destruct (phone_ok _); reflexivity.
Qed.

Lemma clean_step_ok_seven acc r acc' :
  clean_step acc r = Ok acc' -> length r = 7.
Proof.
  unfold clean_step.
  do 8 (destruct r as [|? r]; try discriminate).
  reflexivity.
Qed.

(** The loop over rows of seven fields: a filter and a map. *)
Lemma clean_loop_seven data : forall acc,
  Forall (fun r => length r = 7) data ->
  for_each clean_step data acc =
    Ok {| cleaned_rows := cleaned_rows acc ++ map clean_row (filter (fun r => row_valid r = true) data);
          rejected_rows := rejected_rows acc ++ filter (fun r => row_valid r = false) data |}.
Proof.
  induction data as [|r data IH]; intros acc Hall.
  - simpl. rewrite !app_nil_r. by destruct acc.
  - inversion Hall as [|? ? Hr Hdata]; subst.
    cbn [for_each]. rewrite (clean_step_seven _ _ Hr). cbn [bind].
    rewrite (IH _ Hdata).
    destruct (row_valid r) eqn:Hv; cbn [cleaned_rows rejected_rows].
    + rewrite filter_cons_True by done.
      rewrite (filter_cons_False (fun r => row_valid r = false)) by congruence.
      simpl. by rewrite <- app_assoc.
    + rewrite filter_cons_False by congruence.
      rewrite (filter_cons_True (fun r => row_valid r = false)) by done.
      simpl. by rewrite <- app_assoc.
Qed.

(** A loop that ends normally has met rows of seven fields only. *)
Lemma clean_loop_ok_seven data : forall acc acc',
  for_each clean_step data acc = Ok acc' ->
  Forall (fun r => length r = 7) data.
Proof.
  induction data as [|r data IH]; intros acc acc' H; [constructor|].
  cbn [for_each] in H.
  destruct (clean_step acc r) as [acc1|e] eqn:Hstep; [|discriminate].
  constructor; [by eapply clean_step_ok_seven | by eapply IH].
Qed.

Lemma clean_customer_data_seven header data :
  Forall (fun r => length r = 7) data ->
  exists res,
    clean_customer_data (header :: data) = Ok res
    /\ cleaned_data res = map clean_row (filter (fun r => row_valid r = true) data)
    /\ rejected_data res = filter (fun r => row_valid r = false) data
    /\ output_file res = out_header :: cleaned_data res
    /\ (reject_file res = None <-> rejected_data res = [])
    /\ (rejected_data res <> [] ->
        reject_file res = Some (header :: rejected_data res))
    /\ log_input res = length data
    /\ log_output res = length (cleaned_data res)
    /\ log_rejected res = length (rejected_data res).
Proof.
  intros Hall. unfold clean_customer_data.
  unfold mbind, result_bind.
  rewrite (clean_loop_seven _ _ Hall). cbn [bind app cleaned_rows rejected_rows].
  eexists; split; [reflexivity|].
  unfold cleaned_data, rejected_data; cbn.
  destruct (filter (fun r => row_valid r = false) data) eqn:Hrej; cbn;
    repeat split; try done.
Qed.

Lemma clean_customer_data_inv rows res :
  clean_customer_data rows = Ok res ->
  exists header data,
    rows = header :: data /\ Forall (fun r => length r = 7) data.
Proof.
  destruct rows as [|header data]; [discriminate|].
  unfold clean_customer_data. unfold mbind, result_bind.
  destruct (for_each _ _ _) as [acc|e] eqn:Hloop; [|discriminate].
  intros _. exists header, data. split; [done|]. by eapply clean_loop_ok_seven.
Qed.

(** *** Sentinels, validation and the date rewrite *)

Lemma or_default_keeps v d : is_null v = false -> or_default v d = v.
Proof. unfold or_default. by intros ->. Qed.

Lemma or_default_not_null v d :
  is_null d = false -> is_null (or_default v d) = false.
Proof. unfold or_default. destruct (is_null v) eqn:E; done. Qed.

Lemma or_default_twice v d :
  is_null d = false -> or_default (or_default v d) d = or_default v d.
Proof. intros Hd. apply or_default_keeps. by apply or_default_not_null. Qed.

Lemma is_null_len s : is_null s = true -> len s = 0 \/ len s = 4.
Proof.
  unfold is_null. intros H. apply orb_true_iff in H as [H|H];
    apply String.eqb_eq in H; subst; auto.
Qed.

Lemma phone_ok_len p : phone_ok p = true -> len p = 10 /\ isdigit p = true.
Proof.
  unfold phone_ok. intros H. apply andb_true_iff in H as [Hd Hl].
  apply Nat.eqb_eq in Hl. done.
Qed.

Lemma phone_ok_not_null p : phone_ok p = true -> is_null p = false.
Proof.
  intros H. apply phone_ok_len in H as [Hl _].
  destruct (is_null p) eqn:E; [|done].
  apply is_null_len in E. lia.
Qed.

Lemma len8_chars s :
  len s = 8 ->
  exists y1 y2 y3 y4 m1 m2 d1 d2,
    s = string_of_list_ascii [y1; y2; y3; y4; m1; m2; d1; d2].
Proof.
  intros H. do 9 (destruct s as [|? s]; try discriminate H).
  by repeat eexists.
Qed.

(** What the date rewrite yields, character by character. *)
Lemma format_date_shape d :
  (len d = 8 /\ isdigit d = true ->
   exists y1 y2 y3 y4 m1 m2 d1 d2,
     d = string_of_list_ascii [y1; y2; y3; y4; m1; m2; d1; d2]
     /\ format_date d =
        string_of_list_ascii
          [y1; y2; y3; y4; "-"%char; m1; m2; "-"%char; d1; d2])
  /\ (~ (len d = 8 /\ isdigit d = true) -> format_date d = d).
Proof.
  split.
  - intros [Hl Hd]. destruct (len8_chars _ Hl) as (y1&y2&y3&y4&m1&m2&d1&d2&->).
    exists y1, y2, y3, y4, m1, m2, d1, d2. split; [done|].
    unfold format_date. rewrite Hd. reflexivity.
  - intros Hn. unfold format_date.
    destruct (len d =? 8) eqn:El; [|done].
    destruct (isdigit d) eqn:Ed; [|done].
    apply Nat.eqb_eq in El. by destruct Hn.
Qed.

Lemma format_date_len d :
  len d = 8 -> isdigit d = true -> len (format_date d) = 10.
Proof.
  intros Hl Hd.
  destruct (proj1 (format_date_shape d) (conj Hl Hd))
    as (y1&y2&y3&y4&m1&m2&d1&d2&_&->).
  reflexivity.
Qed.

Lemma format_date_not_null d : is_null d = false -> is_null (format_date d) = false.
Proof.
  intros Hd. destruct (len d =? 8) eqn:El; [destruct (isdigit d) eqn:Ed|].
  - apply Nat.eqb_eq in El. pose proof (format_date_len _ El Ed) as H10.
    destruct (is_null (format_date d)) eqn:E; [|done].
    apply is_null_len in E. lia.
  - unfold format_date. by rewrite El, Ed.
  - unfold format_date. by rewrite El.
Qed.

Lemma format_date_twice d : format_date (format_date d) = format_date d.
Proof.
  destruct (len d =? 8) eqn:El; [destruct (isdigit d) eqn:Ed|].
  - apply Nat.eqb_eq in El. pose proof (format_date_len _ El Ed) as H10.
    unfold format_date at 1.
    replace (len (format_date d) =? 8) with false; [done|].
    symmetry. apply Nat.eqb_neq. lia.
  - unfold format_date. rewrite El, Ed. simpl. by rewrite El, Ed.
  - unfold format_date. rewrite El. simpl. by rewrite El.
Qed.

Lemma clean_row_length r : length (clean_row r) = 7.
Proof. reflexivity. Qed.

(** A cleaned row passes the validation again and is its own cleaned form. *)
Lemma clean_row_valid r : row_valid r = true -> row_valid (clean_row r) = true.
Proof.
  unfold row_valid. intros H.
  change (phone_seen (clean_row r)) with (or_default (phone_seen r) "0000000000").
  rewrite or_default_keeps; [done|]. by apply phone_ok_not_null.
Qed.

Lemma clean_row_twice r : clean_row (clean_row r) = clean_row r.
Proof.
  unfold clean_row at 1. unfold phone_seen at 1.
  cbn [nth clean_row]. unfold phone_seen.
  rewrite !or_default_twice by done.
  rewrite (or_default_keeps (format_date _)).
  - by rewrite format_date_twice.
  - apply format_date_not_null. by apply or_default_not_null.
Qed.

Lemma isdigit_char_ascii c :
  isdigit_char c = true -> (code c <? 128) = true -> is_ascii_digit c = true.
Proof.
  unfold isdigit_char, is_ascii_digit. generalize (code c) as n. intros n H Hlt.
  apply Nat.ltb_lt in Hlt.
  repeat (apply orb_true_iff in H as [H|H]); try done;
    apply Nat.eqb_eq in H; lia.
Qed.

Lemma all_digits_ascii s :
  all_chars isdigit_char s = true -> is_ascii_text s = true ->
  all_chars is_ascii_digit s = true.
Proof.
  unfold is_ascii_text. induction s as [|c s IH]; [done|]. simpl.
  intros H1 H2. apply andb_true_iff in H1 as [? ?], H2 as [? ?].
  apply andb_true_iff. split; [by apply isdigit_char_ascii | by apply IH].
Qed.

Lemma isdigit_all s : isdigit s = true -> all_chars isdigit_char s = true.
Proof. by destruct s. Qed.

End Cleanser.

(** C2 fails on the code.  The check of lines 78-79, commented "must be 10
    digits", is [phone.isdigit() and len(phone) == 10], and [str.isdigit] also
    holds on digits outside '0'..'9'.  On a customer file whose one data row
    has ten superscript twos (U+00B2) as its phone, the run ends normally,
    rejects nothing and writes that row to the cleaned output, with a phone
    none of whose characters is in '0'..'9'. *)
Theorem superscript_phone_passes_validation :
  clean_customer_data superscript_customers =
    Ok {| output_file :=
            [ out_header;
              ["C9"; "Zed"; superscript_phone; "z@x.com"; "2024-01-01"; "ACTIVE"; "1"] ];
          reject_file := None;
          log_input := 1; log_output := 1; log_rejected := 0 |}
  /\ phone_ok superscript_phone = true
  /\ len superscript_phone = 10
  /\ ten_ascii_digits superscript_phone = false
  /\ all_chars (fun c => negb (is_ascii_digit c)) superscript_phone = true.
Proof.
  repeat split; reflexivity.
Qed.

(** Hence the phones of the cleaned output are not always ten characters of
    '0'..'9'. *)
Lemma cleaned_phone_not_always_ascii :
  ~ (forall rows res r,
       clean_customer_data rows = Ok res ->
       r ∈ cleaned_data res ->
       ten_ascii_digits (nth 2 r "") = true).
Proof.
  intros H.
  specialize (H superscript_customers _
                ["C9"; "Zed"; superscript_phone; "z@x.com"; "2024-01-01"; "ACTIVE"; "1"]
                eq_refl).
  cbv in H. discriminate H. apply list_elem_of_here.
Qed.

(** What the check of lines 78-79 does hold back: a cleaned phone has exactly
    ten characters, each one passing [str.isdigit]; the validation meets its
    comment on the phones that are ASCII text, which are then ten characters
    of '0'..'9'. *)
Lemma cleaned_phone_ten_digits rows res r :
  clean_customer_data rows = Ok res ->
  r ∈ cleaned_data res ->
  len (nth 2 r "") = 10
  /\ all_chars isdigit_char (nth 2 r "") = true
  /\ (is_ascii_text (nth 2 r "") = true -> ten_ascii_digits (nth 2 r "") = true).
Proof.
  intros Hrun Hin.
  destruct (clean_customer_data_inv _ _ Hrun) as (header & data & -> & Hall).
  destruct (clean_customer_data_seven header data Hall) as (res' & Hres & Hcl & _).
  rewrite Hrun in Hres. injection Hres as <-.
  rewrite Hcl in Hin. apply list_elem_of_fmap in Hin as (r0 & -> & Hr0).
  apply list_elem_of_filter in Hr0 as [Hv _].
  change (nth 2 (clean_row r0) "") with (phone_seen r0).
  apply phone_ok_len in Hv as [Hl Hd]. apply isdigit_all in Hd.
  split; [done|]. split; [done|].
  intros Hascii. unfold ten_ascii_digits.
  rewrite Hl. simpl. by apply all_digits_ascii.
Qed.

Lemma cleaned_phone_ten_digits_witness :
  clean_customer_data sample_customers =
    Ok {| output_file :=
            [ out_header;
              ["C1"; "Alice"; "0000000000"; "a@x.com"; "2024-01-01"; "ACTIVE"; "500"];
              ["C3"; "Carol"; "9876543210"; "c@x.com"; "03/02/2024"; "ACTIVE"; "10"] ];
          reject_file :=
            Some [ out_header;
                   ["C2"; "Bob"; "12345"; "NULL"; "2024-02-03"; ""; "NULL"] ];
          log_input := 3; log_output := 2; log_rejected := 1 |}
  /\ len "9876543210" = 10
  /\ all_chars isdigit_char "9876543210" = true
  /\ (is_ascii_text "9876543210" = true -> ten_ascii_digits "9876543210" = true).
Proof.
  split; [reflexivity|].
  apply (cleaned_phone_ten_digits sample_customers _
           ["C3"; "Carol"; "9876543210"; "c@x.com"; "03/02/2024"; "ACTIVE"; "10"]
           eq_refl).
  cbn. apply list_elem_of_further, list_elem_of_here.
Defined.

(** C3: the Cleanser is idempotent.  Whenever a run ends normally, a second
    run on the cleaned output of the first ends normally too, writes the same
    cleaned output, rejects nothing and writes no reject file. *)
Theorem clean_customer_data_idempotent rows res :
  clean_customer_data rows = Ok res ->
  exists res',
    clean_customer_data (output_file res) = Ok res'
    /\ output_file res' = output_file res
    /\ rejected_data res' = []
    /\ reject_file res' = None
    /\ log_rejected res' = 0.
Proof.
  intros Hrun.
  destruct (clean_customer_data_inv _ _ Hrun) as (header & data & -> & Hall).
  destruct (clean_customer_data_seven header data Hall)
    as (res0 & Hres & Hcl & _ & Hout & _).
  rewrite Hrun in Hres. injection Hres as <-.
  set (kept := filter (fun r => row_valid r = true) data) in *.
  assert (Hkept : Forall (fun r => row_valid r = true) kept)
    by (apply Forall_forall; intros r Hr; by apply list_elem_of_filter in Hr as [? _]).
  assert (H7 : Forall (fun r => length r = 7) (cleaned_data res))
    by (rewrite Hcl; apply Forall_fmap, Forall_true; intros r; apply clean_row_length).
  destruct (clean_customer_data_seven out_header _ H7)
    as (res' & Hres' & Hcl' & Hrej' & Hout' & Hnone & _ & _ & _ & Hlog).
  assert (Hvalid : Forall (fun r => row_valid r = true) (cleaned_data res))
    by (rewrite Hcl; apply Forall_fmap; eapply Forall_impl; [exact Hkept|];
        intros r Hr; by apply clean_row_valid).
  assert (Hnorej : rejected_data res' = []).
  { rewrite Hrej'. apply filter_none. eapply Forall_impl; [exact Hvalid|].
    simpl. intros r Hr. congruence. }
  exists res'. rewrite Hout at 1. split; [exact Hres'|].
  split; [|split; [done|split; [by apply Hnone | by rewrite Hlog, Hnorej]]].
  rewrite Hout', Hout. f_equal. rewrite Hcl'.
  rewrite filter_all by exact Hvalid.
  rewrite Hcl. rewrite <- list_fmap_compose.
  apply list_fmap_ext. intros _ r _. apply clean_row_twice.
Qed.

Lemma clean_customer_data_idempotent_witness :
  exists res res',
    clean_customer_data sample_customers = Ok res
    /\ clean_customer_data (output_file res) = Ok res'
    /\ output_file res' = output_file res
    /\ rejected_data res' = []
    /\ reject_file res' = None
    /\ log_rejected res' = 0.
Proof.
  eexists.
  destruct (clean_customer_data_idempotent sample_customers _ eq_refl)
    as (res' & H).
  exists res'. split; [reflexivity | exact H].
Defined.

(** C4: on a customer file whose data rows all have seven fields the run
    ends normally and the cleaned rows and the rejected rows together are as
    many as the data rows, in the files and in the logged counts. *)
Theorem clean_counts_add_up header data :
  Forall (fun r => length r = 7) data ->
  exists res,
    clean_customer_data (header :: data) = Ok res
    /\ length (cleaned_data res) + length (rejected_data res) = length data
    /\ log_output res + log_rejected res = log_input res
    /\ log_input res = length data
    /\ log_output res = length (cleaned_data res)
    /\ log_rejected res = length (rejected_data res).
Proof.
  intros Hall.
  destruct (clean_customer_data_seven header data Hall)
    as (res & Hres & Hcl & Hrej & _ & _ & _ & Hin & Hout & Hrj).
  exists res. split; [done|].
  assert (length (cleaned_data res) + length (rejected_data res) = length data).
  { rewrite Hcl, Hrej, length_fmap. clear.
    induction data as [|r data IH]; [done|].
    destruct (row_valid r) eqn:Hv.
    - rewrite filter_cons_True by done.
      rewrite (filter_cons_False (fun r => row_valid r = false)) by congruence.
      simpl. lia.
    - rewrite filter_cons_False by congruence.
      rewrite (filter_cons_True (fun r => row_valid r = false)) by done.
      simpl. lia. }
  repeat split; try done. rewrite Hout, Hrj, Hin. exact H.
Qed.

Lemma clean_counts_add_up_witness :
  Forall (fun r => length r = 7) (tail sample_customers)
  /\ exists res,
       clean_customer_data sample_customers = Ok res
       /\ length (cleaned_data res) + length (rejected_data res) = 3
       /\ log_output res + log_rejected res = log_input res
       /\ log_input res = 3
       /\ log_output res = length (cleaned_data res)
       /\ log_rejected res = length (rejected_data res).
Proof.
  assert (H : Forall (fun r : row => length r = 7) (tail sample_customers))
    by (repeat constructor).
  split; [exact H|].
  exact (clean_counts_add_up out_header (tail sample_customers) H).
Defined.

(** C8: a data row of the customer file that passes the phone validation has
    its cleaned form in the cleaned output; when its registration date, after
    the sentinel substitution, is eight characters long and all digits, the
    date of the cleaned row is its first four characters, a hyphen, the next
    two, a hyphen and the last two; a date of any other shape is emitted as
    it is. *)
Theorem registration_date_normalised header data res
    customer_id name phone email reg_date status credit_limit :
  clean_customer_data (header :: data) = Ok res ->
  [customer_id; name; phone; email; reg_date; status; credit_limit] ∈ data ->
  phone_ok (or_default phone "0000000000") = true ->
  let d := or_default reg_date "1900-01-01" in
  exists reg_date',
    [ or_default customer_id "UNKNOWN"; or_default name "UNKNOWN_CUSTOMER";
      or_default phone "0000000000"; or_default email "noemail@unknown.com";
      reg_date'; or_default status "INACTIVE"; or_default credit_limit "0" ]
      ∈ cleaned_data res
    /\ (len d = 8 /\ isdigit d = true ->
        exists y1 y2 y3 y4 m1 m2 d1 d2,
          d = string_of_list_ascii [y1; y2; y3; y4; m1; m2; d1; d2]
          /\ reg_date' =
             string_of_list_ascii
               [y1; y2; y3; y4; "-"%char; m1; m2; "-"%char; d1; d2])
    /\ (~ (len d = 8 /\ isdigit d = true) -> reg_date' = d).
Proof.
  intros Hrun Hin Hphone d.
  destruct (clean_customer_data_inv _ _ Hrun) as (h & dt & [= <- <-] & Hall).
  destruct (clean_customer_data_seven header data Hall) as (res' & Hres & Hcl & _).
  rewrite Hrun in Hres. injection Hres as <-.
  exists (format_date d). split; [|apply format_date_shape].
  rewrite Hcl.
  assert (Hkept : [customer_id; name; phone; email; reg_date; status; credit_limit]
                  ∈ filter (fun r => row_valid r = true) data)
    by (apply list_elem_of_filter; split; [exact Hphone | exact Hin]).
  exact (list_elem_of_fmap_2 clean_row _ _ Hkept).
Qed.

Lemma registration_date_normalised_witness :
  exists res,
    clean_customer_data sample_customers = Ok res
    /\ exists reg_date',
         ["C1"; "Alice"; "0000000000"; "a@x.com"; reg_date'; "ACTIVE"; "500"]
           ∈ cleaned_data res
         /\ (len "20240101" = 8 /\ isdigit "20240101" = true ->
             exists y1 y2 y3 y4 m1 m2 d1 d2,
               "20240101" = string_of_list_ascii [y1; y2; y3; y4; m1; m2; d1; d2]
               /\ reg_date' =
                  string_of_list_ascii
                    [y1; y2; y3; y4; "-"%char; m1; m2; "-"%char; d1; d2])
         /\ (~ (len "20240101" = 8 /\ isdigit "20240101" = true) ->
             reg_date' = "20240101").
Proof.
  eexists. split; [reflexivity|].
  apply (registration_date_normalised out_header (tail sample_customers) _
           "C1" "Alice" "" "a@x.com" "20240101" "ACTIVE" "500" eq_refl).
  - apply list_elem_of_here.
  - reflexivity.
Defined.

(** C9: on a customer file whose data rows all have seven fields the run
    ends normally whatever the phones are.  The rejected rows are exactly the
    data rows whose phone, after the sentinel substitution, fails the
    validation, each one as it was read; such a row is not in the cleaned
    output; the rows that pass are all cleaned; and the reject file is
    written, under the header of the input, if and only if some row was
    rejected. *)
Theorem invalid_phone_rows_rejected header data :
  Forall (fun r => length r = 7) data ->
  exists res,
    clean_customer_data (header :: data) = Ok res
    /\ rejected_data res = filter (fun r => row_valid r = false) data
    /\ (forall r, r ∈ data -> row_valid r = false ->
          r ∈ rejected_data res /\ r ∉ cleaned_data res)
    /\ cleaned_data res = map clean_row (filter (fun r => row_valid r = true) data)
    /\ (reject_file res = None <-> rejected_data res = [])
    /\ (rejected_data res <> [] ->
        reject_file res = Some (header :: rejected_data res)).
Proof.
  intros Hall.
  destruct (clean_customer_data_seven header data Hall)
    as (res & Hres & Hcl & Hrej & _ & Hnone & Hsome & _).
  exists res. repeat split; try done.
  - rewrite Hrej. by apply list_elem_of_filter.
  - rewrite Hcl. intros Hin.
    apply list_elem_of_fmap in Hin as (r0 & -> & Hr0).
    apply list_elem_of_filter in Hr0 as [Hv _].
    apply clean_row_valid in Hv. congruence.
  - by apply Hnone.
  - by apply Hnone.
Qed.

Lemma invalid_phone_rows_rejected_witness :
  Forall (fun r => length r = 7) (tail sample_customers)
  /\ exists res,
       clean_customer_data sample_customers = Ok res
       /\ rejected_data res =
          filter (fun r => row_valid r = false) (tail sample_customers)
       /\ (forall r, r ∈ tail sample_customers -> row_valid r = false ->
             r ∈ rejected_data res /\ r ∉ cleaned_data res)
       /\ cleaned_data res =
          map clean_row (filter (fun r => row_valid r = true) (tail sample_customers))
       /\ (reject_file res = None <-> rejected_data res = [])
       /\ (rejected_data res <> [] ->
           reject_file res = Some (out_header :: rejected_data res)).
Proof.
  assert (H : Forall (fun r : row => length r = 7) (tail sample_customers))
    by (repeat constructor).
  split; [exact H|].
  exact (invalid_phone_rows_rejected out_header (tail sample_customers) H).
Defined.

(** C10: both outputs of the Cleanser keep the order of the input.  The
    rejected rows are a subsequence of the data rows, and the cleaned rows
    are, one for one and in the same order, the cleaned forms of a
    subsequence of the data rows. *)
Theorem clean_preserves_order rows res :
  clean_customer_data rows = Ok res ->
  sublist (rejected_data res) (tail rows)
  /\ exists kept,
       sublist kept (tail rows)
       /\ cleaned_data res = map clean_row kept
       /\ Forall (fun r => row_valid r = true) kept.
Proof.
  intros Hrun.
  destruct (clean_customer_data_inv _ _ Hrun) as (header & data & -> & Hall).
  destruct (clean_customer_data_seven header data Hall) as (res' & Hres & Hcl & Hrej & _).
  rewrite Hrun in Hres. injection Hres as <-.
  cbn [tail]. split.
  - rewrite Hrej. apply sublist_filter.
  - exists (filter (fun r => row_valid r = true) data).
    split; [apply sublist_filter|]. split; [done|].
    apply Forall_forall. intros r Hr. by apply list_elem_of_filter in Hr as [? _].
Qed.

Lemma clean_preserves_order_witness :
  exists res,
    clean_customer_data sample_customers = Ok res
    /\ sublist (rejected_data res) (tail sample_customers)
    /\ exists kept,
         sublist kept (tail sample_customers)
         /\ cleaned_data res = map clean_row kept
         /\ Forall (fun r => row_valid r = true) kept.
Proof.
  eexists. split; [reflexivity|].
  exact (clean_preserves_order sample_customers _ eq_refl).
Defined.

(** ** Properties of the Usage Deduplicator *)

Section Deduplicator.

Implicit Types (lines : list string) (acc : dedup_acc).

Lemma first_occurrences_elem l x : x ∈ first_occurrences l <-> x ∈ l.
Proof.
  induction l as [|y l IH]; [done|]. cbn [first_occurrences].
  rewrite !elem_of_cons, list_elem_of_filter, IH.
  destruct (decide (x = y)); naive_solver.
Qed.

Lemma first_occurrences_NoDup l : NoDup (first_occurrences l).
Proof.
  induction l as [|y l IH]; cbn [first_occurrences]; [constructor|].
  constructor; [|by apply NoDup_filter].
  rewrite list_elem_of_filter. naive_solver.
Qed.

Lemma first_occurrences_sublist l : sublist (first_occurrences l) l.
Proof.
  induction l as [|y l IH]; cbn [first_occurrences]; [constructor|].
  constructor. etrans; [apply sublist_filter | exact IH].
Qed.

Lemma dedup_step_seen acc line x :
  x ∈ seen (dedup_step acc line) <-> x ∈ seen acc \/ x = line.
Proof. unfold dedup_step. case_decide; simpl; set_solver. Qed.

Lemma dedup_loop_seen lines : forall acc x,
  x ∈ seen (fold_left dedup_step lines acc) <-> x ∈ seen acc \/ x ∈ lines.
Proof.
  induction lines as [|l lines IH]; intros acc x; simpl.
  - rewrite elem_of_nil. naive_solver.
  - rewrite IH, dedup_step_seen, elem_of_cons. naive_solver.
Qed.

(** The loop appends, to what was kept before, the first occurrences of the
    lines not seen before. *)
Lemma dedup_loop_deduped lines : forall acc,
  deduped (fold_left dedup_step lines acc) =
    deduped acc ++ filter (fun y => y ∉ seen acc) (first_occurrences lines).
Proof.
  induction lines as [|l lines IH]; intros acc; simpl.
  - by rewrite app_nil_r.
  - rewrite IH. unfold dedup_step. case_decide as Hseen; simpl.
    + rewrite filter_cons_False by (intros Hn; by apply Hn).
      rewrite list_filter_filter. f_equal.
      apply list_filter_iff. intros y. split; [|naive_solver].
      intros Hy. split; [done|]. by intros ->.
    + rewrite filter_cons_True by done.
      rewrite list_filter_filter, <- app_assoc. simpl. do 2 f_equal.
      apply list_filter_iff. intros y. set_solver.
Qed.

Lemma deduplicate_first_occurrences lines :
  usage_file (deduplicate_usage_data lines) = first_occurrences lines.
Proof.
  unfold deduplicate_usage_data. cbn [usage_file].
  rewrite dedup_loop_deduped. simpl.
  apply filter_all, Forall_true. intros y. set_solver.
Qed.

(** A line met for the first time goes right behind what the lines before
    it have left in the output. *)
Lemma deduplicate_first_seen lines j x :
  lines !! j = Some x ->
  x ∉ take j lines ->
  exists later,
    usage_file (deduplicate_usage_data lines) =
      usage_file (deduplicate_usage_data (take j lines)) ++ x :: later.
Proof.
  intros Hj Hfresh.
  unfold deduplicate_usage_data. cbn [usage_file].
  pose proof (take_drop_middle lines j x Hj) as Hsplit.
  set (before := take j lines) in *. set (after := drop (S j) lines) in *.
  clearbody before after. subst lines.
  rewrite fold_left_app. cbn [fold_left].
  set (acc := fold_left dedup_step before _).
  assert (Hnew : x ∉ seen acc).
  { unfold acc. rewrite dedup_loop_seen. cbn [seen]. set_solver. }
  rewrite dedup_loop_deduped.
  assert (Hstep : dedup_step acc x =
            {| seen := {[x]} ∪ seen acc; deduped := deduped acc ++ [x] |})
    by (unfold dedup_step; by rewrite decide_False).
  rewrite Hstep. cbn [deduped seen].
  rewrite <- app_assoc. simpl. eauto.
Qed.

End Deduplicator.

(** C5: the deduplicated output is an order-preserving subsequence of the
    input lines, holds no line twice, holds exactly the lines of the input
    (lines compared as whole strings, the line ends included), each at the
    place of its first occurrence, and the count of removed duplicates is the
    input count minus the output count, which is never negative. *)
Theorem deduplicate_usage_data_correct lines :
  let res := deduplicate_usage_data lines in
  sublist (usage_file res) lines
  /\ NoDup (usage_file res)
  /\ (forall x, x ∈ usage_file res <-> x ∈ lines)
  /\ usage_file res = first_occurrences lines
  /\ (forall j x, lines !! j = Some x -> x ∉ take j lines ->
        exists later,
          usage_file res =
            usage_file (deduplicate_usage_data (take j lines)) ++ x :: later)
  /\ input_count res = Z.of_nat (length lines)
  /\ output_count res = Z.of_nat (length (usage_file res))
  /\ duplicates_removed res = (input_count res - output_count res)%Z
  /\ (0 <= duplicates_removed res)%Z.
Proof.
  intros res.
  assert (Hfo : usage_file res = first_occurrences lines)
    by apply deduplicate_first_occurrences.
  assert (Hsub : sublist (usage_file res) lines)
    by (rewrite Hfo; apply first_occurrences_sublist).
  split; [done|].
  split; [rewrite Hfo; apply first_occurrences_NoDup|].
  split; [intros x; rewrite Hfo; apply first_occurrences_elem|].
  split; [done|].
  split; [intros j x; apply deduplicate_first_seen|].
  split; [done|]. split; [done|]. split; [done|].
  apply sublist_length in Hsub.
  change (duplicates_removed res)
    with (Z.of_nat (length lines) - Z.of_nat (length (usage_file res)))%Z.
  lia.
Qed.

(** Scenario C of the specification. *)
Example deduplicate_scenario_c :
  let res := deduplicate_usage_data ["a" +:+ nl; "b" +:+ nl; "a" +:+ nl] in
  usage_file res = ["a" +:+ nl; "b" +:+ nl] /\ duplicates_removed res = 1%Z.
Proof. vm_compute. done. Qed.

(** ** Facts about floats, strings and dicts *)

Section Orders.

Ltac order_cases :=
  repeat match goal with
    | |- context [(?x ?= ?y)%Z] => destruct (Z.compare_spec x y); subst
    | H : context [(?x ?= ?y)%Z] |- _ => destruct (Z.compare_spec x y); subst
    | |- context [(?x ?= ?y)%positive] => destruct (Pos.compare_spec x y); subst
    | H : context [(?x ?= ?y)%positive] |- _ =>
        destruct (Pos.compare_spec x y); subst
    end.

(** [<=] of floats is transitive, and a total preorder away from NaN. *)
Lemma fle_trans a b c : fle a b = true -> fle b c = true -> fle a c = true.
Proof.
  unfold fle, SFleb, SFcompare.
  destruct a as [[]|[]| |[] ma ea], b as [[]|[]| |[] mb eb],
           c as [[]|[]| |[] mc ec];
    try done; change (Pos.compare_cont Eq) with Pos.compare;
    intros H1 H2; order_cases; simpl in *; try done; try lia.
Qed.

Lemma fle_refl a : is_nan a = false -> fle a a = true.
Proof.
  unfold fle, SFleb, SFcompare. destruct a as [[]|[]| |[] ma ea]; try done;
    change (Pos.compare_cont Eq) with Pos.compare; intros _;
    by rewrite Z.compare_refl, Pos.compare_refl.
Qed.

Lemma flt_fle a b : flt a b = true -> fle a b = true.
Proof. unfold flt, fle, SFltb, SFleb. by destruct (SFcompare a b) as [[]|]. Qed.

Lemma flt_false_fle a b :
  is_nan a = false -> is_nan b = false -> flt a b = false -> fle b a = true.
Proof.
  unfold flt, fle, SFleb, SFltb, SFcompare.
  destruct a as [[]|[]| |[] ma ea], b as [[]|[]| |[] mb eb];
    try done; change (Pos.compare_cont Eq) with Pos.compare;
    intros _ _ H1; order_cases; simpl in *; try done; try lia.
Qed.

(** The order of strings, by code points. *)
Lemma string_lt_trans a : forall b c,
  String.compare a b = Lt -> String.compare b c = Lt -> String.compare a c = Lt.
Proof.
  induction a as [|x a IH]; intros [|y b] [|z c]; simpl; try done.
  unfold Ascii.compare.
  destruct (N.compare_spec (N_of_ascii x) (N_of_ascii y)) as [Hxy|Hxy|Hxy];
    try done;
    destruct (N.compare_spec (N_of_ascii y) (N_of_ascii z)) as [Hyz|Hyz|Hyz];
    try done;
    destruct (N.compare_spec (N_of_ascii x) (N_of_ascii z)) as [Hxz|Hxz|Hxz];
    try done; try lia; eauto.
Qed.

Lemma string_compare_refl a : String.compare a a = Eq.
Proof.
  induction a as [|x a IH]; [done|]. simpl.
  unfold Ascii.compare. by rewrite N.compare_refl.
Qed.

Lemma string_leb_refl a : String.leb a a = true.
Proof. unfold String.leb. by rewrite string_compare_refl. Qed.

Lemma string_leb_trans a b c :
  String.leb a b = true -> String.leb b c = true -> String.leb a c = true.
Proof.
  unfold String.leb.
  destruct (String.compare a b) eqn:Hab; try done;
    destruct (String.compare b c) eqn:Hbc; try done; intros _ _.
  - apply String.compare_eq_iff in Hab as ->. by rewrite Hbc.
  - apply String.compare_eq_iff in Hab as ->. by rewrite Hbc.
  - apply String.compare_eq_iff in Hbc as <-. by rewrite Hab.
  - by rewrite (string_lt_trans _ _ _ Hab Hbc).
Qed.

Lemma string_ltb_leb a b : String.ltb a b = true -> String.leb a b = true.
Proof. unfold String.ltb, String.leb. by destruct (String.compare a b). Qed.

Lemma string_ltb_false_leb a b : String.ltb a b = false -> String.leb b a = true.
Proof.
  unfold String.ltb, String.leb. rewrite (String.compare_antisym b a).
  by destruct (String.compare a b).
Qed.

End Orders.

(** A running best is one of the values, and is at least as good as each of
    them when [le] is a preorder, total on the values, that [better] refines. *)
Section RunningBest.

Context {X : Type} (better : X -> X -> bool) (le : X -> X -> bool) (good : X -> Prop).
Hypothesis le_refl : forall a, good a -> le a a = true.
Hypothesis le_trans : forall a b c, le a b = true -> le b c = true -> le a c = true.
Hypothesis better_le : forall a m, better a m = true -> le a m = true.
Hypothesis worse_le : forall a m, good a -> good m -> better a m = false -> le m a = true.

Lemma running_fold_best xs : forall m,
  good m -> Forall good xs ->
  let b := fold_left (fun m a => if better a m then a else m) xs m in
  good b /\ le b m = true /\ Forall (fun a => le b a = true) xs
  /\ (b = m \/ b ∈ xs).
Proof.
  induction xs as [|x xs IH]; intros m Hm Hxs; simpl.
  - repeat split; auto.
  - inversion Hxs as [|? ? Hx Hrest]; subst.
    destruct (better x m) eqn:Hb.
    + destruct (IH x Hx Hrest) as (Hg & Hle & Hall & Hin).
      repeat split; [done|by eauto|constructor; done|].
      right. destruct Hin as [->|Hin]; [apply list_elem_of_here|by apply list_elem_of_further].
    + destruct (IH m Hm Hrest) as (Hg & Hle & Hall & Hin).
      repeat split; [done|done|constructor; [by eauto|done]|].
      destruct Hin as [->|Hin]; [by left|right; by apply list_elem_of_further].
Qed.

Lemma running_best_spec xs :
  xs <> [] -> Forall good xs ->
  exists b, running_best better xs = Some b
            /\ b ∈ xs /\ Forall (fun a => le b a = true) xs.
Proof.
  destruct xs as [|x xs]; [done|]. intros _ Hall.
  inversion Hall as [|? ? Hx Hrest]; subst.
  destruct (running_fold_best xs x Hx Hrest) as (Hg & Hle & Hfa & Hin).
  eexists. split; [reflexivity|]. split.
  - destruct Hin as [->|Hin]; [apply list_elem_of_here|by apply list_elem_of_further].
  - constructor; done.
Qed.

End RunningBest.

Section DictFacts.

Context {V : Type}.
Implicit Types (d : dict V) (k : string) (v : V).

Lemma get_set_eq d k v : get (set d k v) k = Some v.
Proof.
  induction d as [|[k' v'] d IH]; simpl.
  - by rewrite String.eqb_refl.
  - destruct (String.eqb_spec k k') as [->|Hne]; simpl.
    + by rewrite String.eqb_refl.
    + by rewrite (proj2 (String.eqb_neq k k') Hne).
Qed.

Lemma get_set_ne d k k' v : k' <> k -> get (set d k v) k' = get d k'.
Proof.
  intros Hne. induction d as [|[k0 v0] d IH]; simpl.
  - by rewrite (proj2 (String.eqb_neq k' k) Hne).
  - destruct (String.eqb_spec k k0) as [->|Hk]; simpl.
    + by rewrite (proj2 (String.eqb_neq k' k0) Hne).
    + by rewrite IH.
Qed.

Lemma set_same d k v : get d k = Some v -> set d k v = d.
Proof.
  induction d as [|[k0 v0] d IH]; simpl; [done|].
  destruct (String.eqb_spec k k0) as [->|Hk]; [by intros [= ->]|].
  intros H. by rewrite IH.
Qed.

Lemma get_None_keys d k : get d k = None <-> k ∉ keys d.
Proof.
  induction d as [|[k0 v0] d IH]; simpl.
  - split; [intros _; apply not_elem_of_nil | done].
  - rewrite not_elem_of_cons. destruct (String.eqb_spec k k0) as [->|Hk]; naive_solver.
Qed.

Lemma keys_set d k v :
  keys (set d k v) = if decide (k ∈ keys d) then keys d else keys d ++ [k].
Proof.
  unfold keys. induction d as [|[k0 v0] d IH]; cbn [set map fst].
  - rewrite decide_False; [done | apply not_elem_of_nil].
  - destruct (String.eqb_spec k k0) as [->|Hk]; cbn [map fst].
    + rewrite decide_True; [done | apply list_elem_of_here].
    + rewrite IH. destruct (decide (k ∈ map fst d)) as [Hin|Hin].
      * rewrite decide_True; [done | by apply list_elem_of_further].
      * rewrite decide_False; [done|]. rewrite not_elem_of_cons. done.
Qed.

Context {R : Type} (key : R -> string) (f : option V -> R -> V).

(** After a run of updates the value of a key is the fold of the updates of
    that key. *)
Lemma get_fold_upsert rs : forall d c,
  get (fold_left (upsert key f) rs d) c =
    fold_left (fun o r => Some (f o r)) (filter (fun r => key r = c) rs) (get d c).
Proof.
  induction rs as [|r rs IH]; intros d c; [done|].
  cbn [fold_left]. rewrite IH. unfold upsert.
  destruct (decide (key r = c)) as [<-|Hne].
  - rewrite filter_cons_True by done. by rewrite get_set_eq.
  - rewrite filter_cons_False by done. rewrite get_set_ne by done. done.
Qed.

(** New keys enter behind the old ones, in the order of their first
    occurrence. *)
Lemma keys_fold_upsert rs : forall d,
  keys (fold_left (upsert key f) rs d) =
    keys d ++ filter (fun k => k ∉ keys d) (first_occurrences (map key rs)).
Proof.
  induction rs as [|r rs IH]; intros d; simpl.
  - by rewrite app_nil_r.
  - rewrite IH. unfold upsert. rewrite keys_set.
    destruct (decide (key r ∈ keys d)) as [Hin|Hin].
    + rewrite filter_cons_False by (intros Hn; by apply Hn).
      rewrite list_filter_filter. f_equal.
      apply list_filter_iff. intros y. split; [|naive_solver].
      intros Hy. split; [done|]. by intros ->.
    + rewrite filter_cons_True by done.
      rewrite list_filter_filter, <- app_assoc. simpl. do 2 f_equal.
      apply list_filter_iff. intros y.
      rewrite elem_of_app, list_elem_of_singleton. naive_solver.
Qed.

End DictFacts.

Section FoldFacts.

Context {R : Type}.

Lemma fold_total (amount : R -> float) rs : forall t,
  fold_left (fun o r => Some (fadd (default fzero o) (amount r))) rs (Some t) =
    Some (fold_left fadd (map amount rs) t).
Proof. induction rs as [|r rs IH]; intros t; simpl; [done|]. by rewrite IH. Qed.

Lemma fold_count rs : forall n,
  fold_left (fun (o : option nat) (_ : R) => Some (default 0 o + 1)) rs (Some n) =
    Some (n + length rs).
Proof.
  induction rs as [|r rs IH]; intros n; simpl; [f_equal; lia|].
  rewrite IH. f_equal. lia.
Qed.

Lemma fold_keep {X} (better : X -> X -> bool) (val : R -> X) rs : forall m,
  fold_left (fun o r => Some (keep better o (val r))) rs (Some m) =
    Some (fold_left (fun m a => if better a m then a else m) (map val rs) m).
Proof. induction rs as [|r rs IH]; intros m; simpl; [done|]. by rewrite IH. Qed.

Lemma fold_keep_best {X} (better : X -> X -> bool) (val : R -> X) rs :
  rs <> [] ->
  fold_left (fun o r => Some (keep better o (val r))) rs None =
    running_best better (map val rs).
Proof. destruct rs as [|r rs]; [done|]. intros _. simpl. apply fold_keep. Qed.

(** Counting the rows key by key, over the distinct keys, counts every row. *)
Lemma count_by_key (key : R -> string) (ks : list string) rs :
  NoDup ks -> Forall (fun r => key r ∈ ks) rs ->
  sum_nat (map (fun c => length (filter (fun r => key r = c) rs)) ks) = length rs.
Proof.
  intros Hnd. induction rs as [|r rs IH]; intros Hall.
  - simpl. clear. induction ks as [|k ks IH]; simpl; [done|]. by rewrite IH.
  - inversion Hall as [|? ? Hr Hrs]; subst. specialize (IH Hrs).
    simpl length. rewrite <- IH. clear IH Hall Hrs.
    induction Hnd as [|k ks Hk Hnd IHks]; [by apply elem_of_nil in Hr|].
    cbn [map sum_nat fold_right].
    destruct (decide (key r = k)) as [Hkr|Hkr].
    + rewrite filter_cons_True by done. simpl length.
      assert (Hsame : map (fun c => length (filter (fun r0 => key r0 = c) (r :: rs))) ks
                      = map (fun c => length (filter (fun r0 => key r0 = c) rs)) ks).
      { apply map_ext_in. intros c Hc. apply list_elem_of_In in Hc.
        rewrite filter_cons_False; [done|]. intros Hc'. congruence. }
      change (fold_right Nat.add 0 ?l) with (sum_nat l).
      rewrite Hsame. lia.
    + rewrite filter_cons_False by done.
      apply elem_of_cons in Hr as [Hr|Hr]; [done|].
      change (fold_right Nat.add 0 ?l) with (sum_nat l) in *.
      rewrite (IHks Hr). lia.
Qed.

End FoldFacts.

(** ** Properties of the Billing Aggregator *)

Section Billing.

Variable float_of_str : string -> option float.
Variable str_of_float : float -> string.


Implicit Types (r : list string) (data : list (list string)) (acc : billing_acc).

Lemma index_nth {A} (xs : list A) i x0 : i < length xs -> index xs i = Ok (nth i xs x0).
Proof.
  intros Hi. unfold index.
  destruct (xs !! i) as [x|] eqn:E.
  - f_equal. symmetry. by apply nth_lookup_Some with (d := x0) in E.
  - apply lookup_ge_None in E. lia.
Qed.

Lemma absent_or_keep {X} (better : X -> X -> bool) (d : dict X) k a :
  (if absent_or d k (fun m => better a m) then set d k a else d)
  = set d k (keep better (get d k) a).
Proof.
  unfold absent_or, keep. destruct (get d k) as [m|] eqn:E; [|done].
  destruct (better a m); [done|]. symmetry. by apply set_same.
Qed.

(** On a row that parses, the loop body is the five updates. *)
Lemma billing_step_ok acc r :
  billing_row_ok float_of_str r = true -> billing_step float_of_str acc r = Ok (billing_update float_of_str acc r).
Proof.
  unfold billing_row_ok. intros H.
  apply andb_true_iff in H as [Hlen Hnan]. apply Nat.leb_le in Hlen.
  apply negb_true_iff in Hnan.
  unfold billing_step.
  unfold mbind, result_bind.
  rewrite (index_nth r 0 "") by lia. cbn [bind].
  rewrite (index_nth r 1 "") by lia. cbn [bind].
  rewrite (index_nth r 2 "") by lia.
  assert (Ha : (if negb (is_null (nth 1 r "")) then parse_float float_of_str (nth 1 r "")
                else Ok fzero) = Ok (row_amount float_of_str r)).
  { revert Hnan. unfold row_amount, parse_float.
    destruct (is_null (nth 1 r "")); simpl; [done|].
    by destruct (float_of_str (nth 1 r "")). }
  rewrite Ha. cbn [bind].
  rewrite (absent_or_keep flt).
  rewrite (absent_or_keep (fun a m => flt m a)).
  rewrite (absent_or_keep (fun b l => String.ltb l b)).
  reflexivity.
Qed.

Lemma billing_loop_ok data : forall acc,
  Forall (fun r => billing_row_ok float_of_str r = true) data ->
  for_each (billing_step float_of_str) data acc = Ok (fold_left (billing_update float_of_str) data acc).
Proof.
  induction data as [|r data IH]; intros acc Hall; [done|].
  inversion Hall as [|? ? Hr Hdata]; subst.
  cbn [for_each fold_left]. rewrite (billing_step_ok _ _ Hr). cbn [bind].
  by apply IH.
Qed.

(** Each dict of the loop is folded on its own. *)
Lemma billing_loop_dicts data : forall acc,
  let final := fold_left (billing_update float_of_str) data acc in
  totals final =
    fold_left (upsert row_customer (fun o r => fadd (default fzero o) (row_amount float_of_str r)))
      data (totals acc)
  /\ counts final =
       fold_left (upsert row_customer (fun o _ => default 0 o + 1)) data (counts acc)
  /\ mins final =
       fold_left (upsert row_customer (fun o r => keep flt o (row_amount float_of_str r)))
         data (mins acc)
  /\ maxs final =
       fold_left (upsert row_customer
                    (fun o r => keep (fun a m => flt m a) o (row_amount float_of_str r)))
         data (maxs acc)
  /\ last_dates final =
       fold_left (upsert row_customer
                    (fun o r => keep (fun b l => String.ltb l b) o (row_date r)))
         data (last_dates acc).
Proof.
  induction data as [|r data IH]; intros acc; [done|].
  cbn [fold_left]. apply IH.
Qed.

Lemma rows_of_nonempty c data :
  c ∈ map row_customer data -> rows_of c data <> [].
Proof.
  intros Hin. apply list_elem_of_fmap in Hin as (r & -> & Hr).
  intros Hnil.
  assert (r ∈ rows_of (row_customer r) data) as Hin
    by (apply list_elem_of_filter; done).
  rewrite Hnil in Hin. by apply elem_of_nil in Hin.
Qed.

(** The summary written for a customer of the input is the summary of the
    rows of that customer. *)
Lemma summarise_ok data c :
  c ∈ map row_customer data ->
  summarise (fold_left (billing_update float_of_str) data billing_init) c = Ok (summary_of_rows float_of_str data c).
Proof.
  intros Hc. pose proof (rows_of_nonempty _ _ Hc) as Hne.
  destruct (billing_loop_dicts data billing_init) as (Ht & Hn & Hmin & Hmax & Hlast).
  unfold summarise, getitem. unfold mbind, result_bind.
  rewrite Ht, Hn, Hmin, Hmax, Hlast. rewrite !get_fold_upsert. cbn [billing_init totals counts mins maxs last_dates get].
  fold (rows_of c data). unfold summary_of_rows.
  rewrite !fold_keep_best by done.
  destruct (rows_of c data) as [|r mine] eqn:Hmine; [done|].
  cbn [fold_left default]. rewrite fold_total, fold_count.
  cbn [bind map running_best default length].
  replace (0 + 1 + length mine) with (S (length mine)) by lia.
  cbn [Nat.ltb Nat.leb]. reflexivity.
Qed.

Lemma map_result_ok {A B} (f : A -> result B) (g : A -> B) xs :
  Forall (fun x => f x = Ok (g x)) xs -> map_result f xs = Ok (map g xs).
Proof.
  induction 1 as [|x xs Hx _ IH]; [done|].
  cbn [map_result map]. by rewrite Hx, IH.
Qed.

(** On a billing file whose data rows all parse, the run ends normally and
    writes, customer by customer in the order of first appearance, the
    summary of the rows of each customer. *)
Lemma aggregate_billing_data_ok header rest :
  let data := map billing_fields rest in
  let customers := first_occurrences (map row_customer data) in
  Forall (fun r => billing_row_ok float_of_str r = true) data ->
  aggregate_billing_data float_of_str str_of_float (header :: rest) =
    Ok {| summaries := map (summary_of_rows float_of_str data) customers;
          billing_file :=
            billing_header
              :: map (summary_line str_of_float) (map (summary_of_rows float_of_str data) customers);
          log_customers := length customers |}.
Proof.
  intros data customers Hall.
  unfold aggregate_billing_data. unfold mbind, result_bind.
  fold data. rewrite (billing_loop_ok _ _ Hall). cbn [bind].
  destruct (billing_loop_dicts data billing_init) as (Ht & _).
  assert (Hkeys : keys (totals (fold_left (billing_update float_of_str) data billing_init)) = customers).
  { rewrite Ht, keys_fold_upsert. cbn [billing_init totals keys map app].
    apply filter_all, Forall_true. intros k. apply not_elem_of_nil. }
  rewrite Hkeys.
  rewrite (map_result_ok _ (summary_of_rows float_of_str data)).
  - cbn [bind]. do 2 f_equal.
    rewrite <- Hkeys. unfold keys. by rewrite length_map.
  - apply Forall_forall. intros c Hc. apply summarise_ok.
    by apply first_occurrences_elem.
Qed.

End Billing.

(** The summary of the rows of a customer has the statistics of these rows. *)
Lemma summary_of_rows_spec float_of_str data c :
  let mine := rows_of c data in
  let s := summary_of_rows float_of_str data c in
  Forall (fun r => billing_row_ok float_of_str r = true) data ->
  c ∈ map row_customer data ->
  Forall (fun r => fle (min_amount s) (row_amount float_of_str r) = true) mine
  /\ Forall (fun r => fle (row_amount float_of_str r) (max_amount s) = true) mine
  /\ min_amount s ∈ map (row_amount float_of_str) mine
  /\ max_amount s ∈ map (row_amount float_of_str) mine
  /\ last_billing_date s ∈ map row_date mine
  /\ Forall (fun r => String.leb (row_date r) (last_billing_date s) = true) mine.
Proof.
  intros mine s Hall Hc.
  assert (Hne : mine <> []) by by apply rows_of_nonempty.
  assert (Hnum : Forall (fun a => is_nan a = false) (map (row_amount float_of_str) mine)).
  { apply Forall_fmap, Forall_forall. intros r Hr.
    apply list_elem_of_filter in Hr as [_ Hr].
    rewrite Forall_forall in Hall. specialize (Hall r Hr).
    unfold billing_row_ok in Hall. apply andb_true_iff in Hall as [_ Hn].
    by apply negb_true_iff in Hn. }
  assert (Hne' : map (row_amount float_of_str) mine <> [])
    by (destruct mine; done).
  assert (Hned : map row_date mine <> []) by (destruct mine; done).
  destruct (running_best_spec flt fle (fun a => is_nan a = false)
              fle_refl fle_trans flt_fle flt_false_fle _ Hne' Hnum)
    as (lo & Hlo & Hlo_in & Hlo_le).
  destruct (running_best_spec (fun a m => flt m a) (fun a b => fle b a)
              (fun a => is_nan a = false) fle_refl
              (fun a b c H1 H2 => fle_trans c b a H2 H1)
              (fun a m => flt_fle m a)
              (fun a m Ha Hm => flt_false_fle m a Hm Ha) _ Hne' Hnum)
    as (hi & Hhi & Hhi_in & Hhi_le).
  destruct (running_best_spec (fun b l => String.ltb l b) (fun a b => String.leb b a)
              (fun _ => True) (fun a _ => string_leb_refl a)
              (fun a b c H1 H2 => string_leb_trans c b a H2 H1)
              (fun a m => string_ltb_leb m a)
              (fun a m _ _ => string_ltb_false_leb m a) _ Hned
              (Forall_true _ _ (fun _ => I)))
    as (la & Hla & Hla_in & Hla_le).
  subst s. unfold summary_of_rows. fold mine.
  cbn [min_amount max_amount last_billing_date]. rewrite Hlo, Hhi, Hla. cbn [default].
  apply Forall_fmap in Hlo_le, Hhi_le, Hla_le.
  repeat split; done.
Qed.

(** C6: on a billing file whose data rows have at least three fields and an
    amount that is empty, "NULL" or a number, the run ends normally and every
    customer of the file has exactly one summary; its total is the sum of the
    amounts of the rows of that customer (0.0 for an empty or "NULL" amount),
    added up in input order, its average is the total divided by its record count, its record count is
    the number of these rows, its minimum is at most and its maximum at least
    every one of these amounts, and its last billing date is the greatest
    date string of these rows in the order of strings. *)
Theorem billing_summary_correct float_of_str str_of_float header rest c :
  let data := map billing_fields rest in
  let mine := rows_of c data in
  Forall (fun r => billing_row_ok float_of_str r = true) data ->
  c ∈ map row_customer data ->
  exists res s,
    aggregate_billing_data float_of_str str_of_float (header :: rest) = Ok res
    /\ s ∈ summaries res
    /\ cust_id s = c
    /\ (forall s', s' ∈ summaries res -> cust_id s' = c -> s' = s)
    /\ total_amount s = fsum (map (row_amount float_of_str) mine)
    /\ avg_amount s =
       Float (fdiv (total_amount s) (float_of_int (Z.of_nat (record_count s))))
    /\ record_count s = length mine
    /\ Forall (fun r => fle (min_amount s) (row_amount float_of_str r) = true) mine
    /\ Forall (fun r => fle (row_amount float_of_str r) (max_amount s) = true) mine
    /\ last_billing_date s ∈ map row_date mine
    /\ Forall (fun r => String.leb (row_date r) (last_billing_date s) = true) mine.
Proof.
  intros data mine Hall Hc.
  pose proof (aggregate_billing_data_ok float_of_str str_of_float header rest Hall)
    as Hrun.
  fold data in Hrun.
  destruct (summary_of_rows_spec float_of_str data c Hall Hc)
    as (Hmin & Hmax & _ & _ & Hlast_in & Hlast).
  eexists. exists (summary_of_rows float_of_str data c).
  split; [exact Hrun|]. cbn [summaries].
  split.
  { apply (list_elem_of_fmap_2 (summary_of_rows float_of_str data)).
    by apply first_occurrences_elem. }
  split; [done|]. split.
  { intros s' Hs' Hid. apply list_elem_of_fmap in Hs' as (c' & -> & _).
    cbn in Hid. by subst c'. }
  repeat split; done.
Qed.

Lemma billing_summary_correct_witness :
  let data := map billing_fields (tail sample_billing) in
  let mine := rows_of "C1" data in
  Forall (fun r => billing_row_ok float_of_digits r = true) data
  /\ "C1" ∈ map row_customer data
  /\ exists res s,
       aggregate_billing_data float_of_digits (fun _ => "?")
         (("customer_id|amount|billing_date" +:+ nl) :: tail sample_billing) = Ok res
       /\ s ∈ summaries res
       /\ cust_id s = "C1"
       /\ (forall s', s' ∈ summaries res -> cust_id s' = "C1" -> s' = s)
       /\ total_amount s = fsum (map (row_amount float_of_digits) mine)
       /\ avg_amount s =
          Float (fdiv (total_amount s) (float_of_int (Z.of_nat (record_count s))))
       /\ record_count s = length mine
       /\ Forall (fun r => fle (min_amount s) (row_amount float_of_digits r) = true) mine
       /\ Forall (fun r => fle (row_amount float_of_digits r) (max_amount s) = true) mine
       /\ last_billing_date s ∈ map row_date mine
       /\ Forall (fun r => String.leb (row_date r) (last_billing_date s) = true) mine.
Proof.
  assert (H1 : Forall (fun r => billing_row_ok float_of_digits r = true)
                 (map billing_fields (tail sample_billing)))
    by (repeat constructor).
  assert (H2 : "C1" ∈ map row_customer (map billing_fields (tail sample_billing)))
    by apply list_elem_of_here.
  split; [exact H1|]. split; [exact H2|].
  exact (billing_summary_correct float_of_digits (fun _ => "?")
           ("customer_id|amount|billing_date" +:+ nl) (tail sample_billing) "C1" H1 H2).
Defined.

(** C7: on a billing file whose data rows all parse, the run ends normally
    and writes, behind the header line, one summary line for each distinct
    customer_id of the file and no other, in the order in which the
    customer_ids first appear; the record counts of the summaries add up to
    the number of data rows, the lines behind the header. *)
Theorem billing_one_summary_per_customer float_of_str str_of_float header rest :
  let data := map billing_fields rest in
  Forall (fun r => billing_row_ok float_of_str r = true) data ->
  exists res,
    aggregate_billing_data float_of_str str_of_float (header :: rest) = Ok res
    /\ map cust_id (summaries res) = first_occurrences (map row_customer data)
    /\ NoDup (map cust_id (summaries res))
    /\ (forall c, c ∈ map cust_id (summaries res) <-> c ∈ map row_customer data)
    /\ billing_file res =
       billing_header :: map (summary_line str_of_float) (summaries res)
    /\ log_customers res = length (summaries res)
    /\ sum_nat (map record_count (summaries res)) = length rest.
Proof.
  intros data Hall.
  pose proof (aggregate_billing_data_ok float_of_str str_of_float header rest Hall)
    as Hrun.
  fold data in Hrun. eexists. split; [exact Hrun|]. cbn [summaries billing_file log_customers].
  assert (Hids : map cust_id
                   (map (summary_of_rows float_of_str data)
                      (first_occurrences (map row_customer data)))
                 = first_occurrences (map row_customer data)).
  { rewrite map_map. cbn [summary_of_rows cust_id]. apply map_id. }
  rewrite Hids.
  split; [done|]. split; [apply first_occurrences_NoDup|].
  split; [intros c; apply first_occurrences_elem|].
  split; [done|]. split; [by rewrite length_map|].
  rewrite map_map. cbn [summary_of_rows record_count].
  unfold rows_of.
  rewrite (count_by_key row_customer).
  - unfold data. by rewrite length_map.
  - apply first_occurrences_NoDup.
  - apply Forall_forall. intros r Hr. apply first_occurrences_elem.
    by apply (list_elem_of_fmap_2 row_customer).
Qed.

Lemma billing_one_summary_per_customer_witness :
  let data := map billing_fields (tail sample_billing) in
  Forall (fun r => billing_row_ok float_of_digits r = true) data
  /\ exists res,
       aggregate_billing_data float_of_digits (fun _ => "?")
         (("customer_id|amount|billing_date" +:+ nl) :: tail sample_billing) = Ok res
       /\ map cust_id (summaries res) = first_occurrences (map row_customer data)
       /\ NoDup (map cust_id (summaries res))
       /\ (forall c, c ∈ map cust_id (summaries res) <-> c ∈ map row_customer data)
       /\ billing_file res =
          billing_header :: map (summary_line (fun _ => "?")) (summaries res)
       /\ log_customers res = length (summaries res)
       /\ sum_nat (map record_count (summaries res)) = length (tail sample_billing).
Proof.
  assert (H1 : Forall (fun r => billing_row_ok float_of_digits r = true)
                 (map billing_fields (tail sample_billing)))
    by (repeat constructor).
  split; [exact H1|].
  exact (billing_one_summary_per_customer float_of_digits (fun _ => "?")
           ("customer_id|amount|billing_date" +:+ nl) (tail sample_billing) H1).
Defined.

(** Scenario D of the specification: total 30.0, average 15.0, count 2,
    minimum 10.0, maximum 20.0, last date 2024-01-10. *)
Example aggregate_scenario_d :
  exists res,
    aggregate_billing_data float_of_digits (fun _ => "?")
      [ "customer_id|amount|billing_date" +:+ nl;
        "C1|10|2024-01-05" +:+ nl; "C1|20|2024-01-10" +:+ nl ] = Ok res
    /\ summaries res =
       [ {| cust_id := "C1";
            total_amount := float_of_int 30;
            avg_amount := Float (float_of_int 15);
            record_count := 2;
            min_amount := float_of_int 10;
            max_amount := float_of_int 20;
            last_billing_date := "2024-01-10" |} ].
Proof. eexists. split; vm_compute; reflexivity. Qed.

(** The bound on the minimum needs the amounts to be numbers: a NaN amount
    that comes first stays the minimum, and it compares below nothing. *)
Example nan_amount_stays_minimum :
  exists res s,
    aggregate_billing_data float_of_digits (fun _ => "?")
      [ "customer_id|amount|billing_date" +:+ nl;
        "C1|nan|2024-01-05" +:+ nl; "C1|1|2024-01-10" +:+ nl ] = Ok res
    /\ summaries res = [s]
    /\ min_amount s = S754_nan
    /\ fle (min_amount s) (float_of_int 1) = false.
Proof. do 2 eexists. repeat split; vm_compute; reflexivity. Qed.

(** ** The Report Composer *)

Section Report.

Variable float_of_str : string -> option float.
Variable str_of_float : float -> string.
Variable format_2f : float -> string.

(** Every iteration of the usage loop writes the usage block once more. *)
Lemma usage_loop_written n lines : forall acc u,
  for_each (usage_step float_of_str str_of_float n) lines acc = Ok u ->
  exists body,
    written u = written acc ++ body
    /\ times_written usage_heading body = length lines
    /\ times_written customer_heading body = 0
    /\ times_written billing_heading body = 0
    /\ times_written summary_heading body = 0.
Proof.
  induction lines as [|line lines IH]; intros acc u Hrun.
  - injection Hrun as <-. exists []. by rewrite app_nil_r.
  - cbn [for_each] in Hrun.
    destruct (usage_step float_of_str str_of_float n acc line) as [acc1|e] eqn:Hstep;
      [|discriminate].
    cbn [bind] in Hrun. destruct (IH _ _ Hrun) as (body & Hw & Hu & Hc & Hb & Hs).
    unfold usage_step in Hstep. unfold mbind, result_bind in Hstep.
    match type of Hstep with
    | Py.bind ?m _ = _ => destruct m as [total|e]; [|discriminate]
    end.
    cbn [bind] in Hstep. injection Hstep as <-. cbn [written] in Hw.
    eexists. split; [rewrite Hw, <- app_assoc; reflexivity|].
    unfold times_written in *. rewrite !filter_app, !length_app, Hu, Hc, Hb, Hs.
    repeat split.
Qed.

(** A report that gets written holds the customer, billing and summary
    headings once each, and the usage heading once for every data line of
    the usage file. *)
Lemma report_sections now_title now_footer customer_rows usage_lines billing_lines report :
  create_final_report float_of_str str_of_float format_2f now_title now_footer
    customer_rows usage_lines billing_lines = Ok report ->
  times_written customer_heading report = 1
  /\ times_written usage_heading report = length (tail usage_lines)
  /\ times_written billing_heading report = 1
  /\ times_written summary_heading report = 1.
Proof.
  unfold create_final_report. unfold mbind, result_bind.
  destruct (count_active _) as [active|e]; [|discriminate]. cbn [bind].
  destruct (for_each _ _ _) as [u|e] eqn:Hloop; [|discriminate]. cbn [bind].
  destruct (sum_revenue _ _) as [revenue|e]; [|discriminate]. cbn [bind].
  intros [= <-].
  destruct (usage_loop_written _ _ _ _ Hloop) as (body & -> & Hu & Hc & Hb & Hs).
  cbn [written]. unfold times_written in *.
  rewrite !filter_app, !length_app, Hu, Hc, Hb, Hs.
  unfold from_1. destruct usage_lines as [|l0 usage_lines]; cbn [map tail];
    rewrite ?length_map; repeat split;
    repeat match goal with
      | |- context [length (filter ?P (?c :: ?l))] =>
          let n := eval vm_compute in (length (filter P (c :: l))) in
          change (length (filter P (c :: l))) with n
      end; lia.
Qed.

End Report.

(** C1 fails on the code.  The three writes of the usage block are statements
    of the loop over the data lines of the usage file, so the report holds the
    usage section once per data line: not at all for a usage file of a lone
    header line, twice (the first time with the running total) for one of two
    data lines. *)
Theorem report_usage_section_per_data_line str_of_float format_2f now_title now_footer :
  create_final_report float_of_digits str_of_float format_2f now_title now_footer
    [out_header] usage_header_only [billing_header]
  = Ok [ "=== TELECOM DAILY ETL REPORT - " +:+ now_title +:+ " ===" +:+ nl +:+ nl;
         customer_heading;
         "  - Total customers processed: 0" +:+ nl;
         "  - Active customers: 0" +:+ nl +:+ nl;
         billing_heading;
         "  - Customers with billing: 0" +:+ nl;
         "  - Total revenue: " +:+ format_2f fzero +:+ nl +:+ nl;
         summary_heading;
         "  - Script: telecom_etl_pipeline (Python version)" +:+ nl;
         "  - Status: SUCCESS" +:+ nl;
         "  - Report generated at: " +:+ now_footer +:+ nl ]
  /\ create_final_report float_of_digits str_of_float format_2f now_title now_footer
       [out_header] usage_two_lines [billing_header]
     = Ok [ "=== TELECOM DAILY ETL REPORT - " +:+ now_title +:+ " ===" +:+ nl +:+ nl;
            customer_heading;
            "  - Total customers processed: 0" +:+ nl;
            "  - Active customers: 0" +:+ nl +:+ nl;
            usage_heading;
            "  - Total usage records: 2" +:+ nl;
            "  - Total data usage (MB): " +:+ str_of_float (float_of_int 10) +:+ nl +:+ nl;
            usage_heading;
            "  - Total usage records: 2" +:+ nl;
            "  - Total data usage (MB): " +:+ str_of_float (float_of_int 30) +:+ nl +:+ nl;
            billing_heading;
            "  - Customers with billing: 0" +:+ nl;
            "  - Total revenue: " +:+ format_2f fzero +:+ nl +:+ nl;
            summary_heading;
            "  - Script: telecom_etl_pipeline (Python version)" +:+ nl;
            "  - Status: SUCCESS" +:+ nl;
            "  - Report generated at: " +:+ now_footer +:+ nl ].
Proof. split; vm_compute; reflexivity. Qed.

(** ** Further properties of the Customer Cleanser *)

(** How a run of the Cleanser ends.  It raises IndexError on a file without
    any row (there is no header to take), ValueError as soon as some data row
    has other than seven fields, and ends normally in every other case. *)
Theorem clean_customer_data_outcome :
  clean_customer_data [] = Raise IndexError
  /\ (forall header data,
        Forall (fun r => length r = 7) data <->
        exists res, clean_customer_data (header :: data) = Ok res)
  /\ (forall header data,
        Exists (fun r => length r <> 7) data <->
        clean_customer_data (header :: data) = Raise ValueError).
Proof.
  split; [reflexivity|].
  assert (Hraise : forall data acc e,
            for_each clean_step data acc = Raise e -> e = ValueError).
  { induction data as [|r data IH]; intros acc e H; [discriminate|].
    cbn [for_each] in H.
    destruct (clean_step acc r) as [acc1|e1] eqn:Hstep; cbn [bind] in H.
    - by eapply IH.
    - injection H as <-. unfold clean_step in Hstep.
      do 8 (destruct r as [|? r]; try by injection Hstep).
      by destruct (negb _). }
  split; intros header data.
  - split.
    + intros Hall. destruct (clean_customer_data_seven header data Hall) as (res & H & _).
      by exists res.
    + intros [res H]. destruct (clean_customer_data_inv _ _ H) as (h & d & [= <- <-] & Hall).
      exact Hall.
  - split.
    + intros Hex. destruct (clean_customer_data (header :: data)) as [res|e] eqn:Hrun.
      * destruct (clean_customer_data_inv _ _ Hrun) as (h & d & [= <- <-] & Hall).
        apply Exists_exists in Hex as (r & Hr & Hlen).
        rewrite Forall_forall in Hall. by specialize (Hall r Hr).
      * f_equal. unfold clean_customer_data, mbind, result_bind in Hrun.
        destruct (for_each _ _ _) as [acc|e'] eqn:Hloop; [discriminate|].
        injection Hrun as <-. by eapply Hraise.
    + intros Hrun. apply not_Forall_Exists; [intros r; apply _|].
      intros Hall. destruct (clean_customer_data_seven header data Hall) as (res & H & _).
      pose proof (eq_trans (eq_sym H) Hrun) as Hbad. discriminate Hbad.
Qed.

(** Every row of the cleaned output has seven fields, none of them empty or
    "NULL". *)
Theorem cleaned_rows_complete rows res r :
  clean_customer_data rows = Ok res ->
  r ∈ cleaned_data res ->
  length r = 7 /\ Forall (fun field => is_null field = false) r.
Proof.
  intros Hrun Hin.
  destruct (clean_customer_data_inv _ _ Hrun) as (header & data & -> & Hall).
  destruct (clean_customer_data_seven header data Hall) as (res' & Hres & Hcl & _).
  rewrite Hrun in Hres. injection Hres as <-.
  rewrite Hcl in Hin. apply list_elem_of_fmap in Hin as (r0 & -> & Hr0).
  apply list_elem_of_filter in Hr0 as [Hv _].
  split; [reflexivity|]. unfold clean_row, phone_seen.
  repeat constructor; try by apply or_default_not_null.
  apply format_date_not_null. by apply or_default_not_null.
Qed.

Lemma cleaned_rows_complete_witness :
  exists res,
    clean_customer_data sample_customers = Ok res
    /\ length ["C1"; "Alice"; "0000000000"; "a@x.com"; "2024-01-01"; "ACTIVE"; "500"] = 7
    /\ Forall (fun field => is_null field = false)
         ["C1"; "Alice"; "0000000000"; "a@x.com"; "2024-01-01"; "ACTIVE"; "500"].
Proof.
  eexists. split; [reflexivity|].
  apply (cleaned_rows_complete sample_customers _ _ eq_refl).
  apply list_elem_of_here.
Defined.

(** A data row that needs no cleaning is emitted as it is: when none of its
    fields is empty or "NULL", its phone passes the validation and its
    registration date is not a run of eight digits, the row itself is in the
    cleaned output. *)
Theorem complete_row_kept_verbatim header data res r :
  clean_customer_data (header :: data) = Ok res ->
  r ∈ data ->
  Forall (fun field => is_null field = false) r ->
  phone_ok (nth 2 r "") = true ->
  (len (nth 4 r "") =? 8) && isdigit (nth 4 r "") = false ->
  r ∈ cleaned_data res.
Proof.
  intros Hrun Hin Hfull Hphone Hdate.
  destruct (clean_customer_data_inv _ _ Hrun) as (h & d & [= <- <-] & Hall).
  destruct (clean_customer_data_seven header data Hall) as (res' & Hres & Hcl & _).
  rewrite Hrun in Hres. injection Hres as <-.
  assert (Hlen : length r = 7) by (rewrite Forall_forall in Hall; by apply Hall).
  do 8 (destruct r as [|? r]; try discriminate Hlen).
  repeat match goal with H : Forall _ (_ :: _) |- _ => inversion H; clear H; subst end.
  cbn [nth] in Hphone, Hdate.
  assert (Hsame : clean_row [s; s0; s1; s2; s3; s4; s5] = [s; s0; s1; s2; s3; s4; s5]).
  { unfold clean_row, phone_seen. cbn [nth]. rewrite !or_default_keeps by done.
    unfold format_date. by rewrite Hdate. }
  rewrite Hcl, <- Hsame. apply (list_elem_of_fmap_2 clean_row).
  apply list_elem_of_filter. split; [|done].
  unfold row_valid, phone_seen. cbn [nth]. by rewrite or_default_keeps.
Qed.

Lemma complete_row_kept_verbatim_witness :
  exists res,
    clean_customer_data sample_customers = Ok res
    /\ ["C3"; "Carol"; "9876543210"; "c@x.com"; "03/02/2024"; "ACTIVE"; "10"]
         ∈ cleaned_data res.
Proof.
  eexists. split; [reflexivity|].
  apply (complete_row_kept_verbatim out_header (tail sample_customers) _ _ eq_refl).
  - apply list_elem_of_further, list_elem_of_further, list_elem_of_here.
  - repeat constructor.
  - reflexivity.
  - reflexivity.
Defined.

(** A missing phone never rejects a row: the sentinel is put in before the
    validation, so a data row whose phone is empty or "NULL" is cleaned, with
    the phone "0000000000", and is not among the rejected rows. *)
Theorem missing_phone_never_rejected header data res r :
  clean_customer_data (header :: data) = Ok res ->
  r ∈ data ->
  is_null (nth 2 r "") = true ->
  clean_row r ∈ cleaned_data res
  /\ nth 2 (clean_row r) "" = "0000000000"
  /\ r ∉ rejected_data res.
Proof.
  intros Hrun Hin Hnull.
  destruct (clean_customer_data_inv _ _ Hrun) as (h & d & [= <- <-] & Hall).
  destruct (clean_customer_data_seven header data Hall) as (res' & Hres & Hcl & Hrej & _).
  rewrite Hrun in Hres. injection Hres as <-.
  assert (Hseen : phone_seen r = "0000000000")
    by (unfold phone_seen, or_default; by rewrite Hnull).
  assert (Hv : row_valid r = true) by (unfold row_valid; by rewrite Hseen).
  split; [|split].
  - rewrite Hcl. apply (list_elem_of_fmap_2 clean_row).
    by apply list_elem_of_filter.
  - exact Hseen.
  - rewrite Hrej. intros Hr. apply list_elem_of_filter in Hr as [Hr _]. congruence.
Qed.

Lemma missing_phone_never_rejected_witness :
  exists res,
    clean_customer_data sample_customers = Ok res
    /\ clean_row ["C1"; "Alice"; ""; "a@x.com"; "20240101"; "ACTIVE"; "500"]
         ∈ cleaned_data res
    /\ nth 2 (clean_row ["C1"; "Alice"; ""; "a@x.com"; "20240101"; "ACTIVE"; "500"]) ""
       = "0000000000"
    /\ ["C1"; "Alice"; ""; "a@x.com"; "20240101"; "ACTIVE"; "500"] ∉ rejected_data res.
Proof.
  eexists. split; [reflexivity|].
  apply (missing_phone_never_rejected out_header (tail sample_customers) _ _ eq_refl).
  - apply list_elem_of_here.
  - reflexivity.
Defined.

(** Rows are cleaned one by one: the outputs for a file are the outputs for
    its first part followed by the outputs for the rest, and the header row of
    the input has no part in the cleaned output. *)
Theorem clean_customer_data_app header header1 header2 data1 data2 res :
  clean_customer_data (header :: data1 ++ data2) = Ok res ->
  exists res1 res2,
    clean_customer_data (header1 :: data1) = Ok res1
    /\ clean_customer_data (header2 :: data2) = Ok res2
    /\ cleaned_data res = cleaned_data res1 ++ cleaned_data res2
    /\ rejected_data res = rejected_data res1 ++ rejected_data res2
    /\ log_output res = log_output res1 + log_output res2
    /\ log_rejected res = log_rejected res1 + log_rejected res2.
Proof.
  intros Hrun.
  destruct (clean_customer_data_inv _ _ Hrun) as (h & d & [= <- <-] & Hall).
  apply Forall_app in Hall as Hparts. destruct Hparts as [H1 H2].
  destruct (clean_customer_data_seven header _ Hall)
    as (res' & Hres & Hcl & Hrej & _ & _ & _ & _ & Hlo & Hlr).
  rewrite Hrun in Hres. injection Hres as <-.
  destruct (clean_customer_data_seven header1 _ H1)
    as (res1 & Hres1 & Hcl1 & Hrej1 & _ & _ & _ & _ & Hlo1 & Hlr1).
  destruct (clean_customer_data_seven header2 _ H2)
    as (res2 & Hres2 & Hcl2 & Hrej2 & _ & _ & _ & _ & Hlo2 & Hlr2).
  exists res1, res2.
  assert (Hc : cleaned_data res = cleaned_data res1 ++ cleaned_data res2)
    by (by rewrite Hcl, Hcl1, Hcl2, filter_app, map_app).
  assert (Hr : rejected_data res = rejected_data res1 ++ rejected_data res2)
    by (by rewrite Hrej, Hrej1, Hrej2, filter_app).
  repeat split; try done.
  - by rewrite Hlo, Hlo1, Hlo2, Hc, length_app.
  - by rewrite Hlr, Hlr1, Hlr2, Hr, length_app.
Qed.

Lemma clean_customer_data_app_witness :
  exists res res1 res2,
    clean_customer_data sample_customers = Ok res
    /\ clean_customer_data (["id"] :: take 1 (tail sample_customers)) = Ok res1
    /\ clean_customer_data ([] :: drop 1 (tail sample_customers)) = Ok res2
    /\ cleaned_data res = cleaned_data res1 ++ cleaned_data res2
    /\ rejected_data res = rejected_data res1 ++ rejected_data res2
    /\ log_output res = log_output res1 + log_output res2
    /\ log_rejected res = log_rejected res1 + log_rejected res2.
Proof.
  eexists.
  destruct (clean_customer_data_app out_header ["id"] []
              (take 1 (tail sample_customers)) (drop 1 (tail sample_customers)) _ eq_refl)
    as (res1 & res2 & H).
  exists res1, res2. split; [reflexivity | exact H].
Defined.

(** ** Further properties of the Usage Deduplicator *)

Lemma first_occurrences_NoDup_id l : NoDup l -> first_occurrences l = l.
Proof.
  induction 1 as [|x l Hx _ IH]; [done|]. cbn [first_occurrences].
  rewrite IH. f_equal. apply filter_all, Forall_forall. by intros y Hy ->.
Qed.

Lemma first_occurrences_app l1 l2 :
  first_occurrences (l1 ++ l2) =
    first_occurrences l1 ++ filter (fun y => y ∉ l1) (first_occurrences l2).
Proof.
  induction l1 as [|x l1 IH]; cbn [app first_occurrences].
  - symmetry. apply filter_all, Forall_true. intros y. apply not_elem_of_nil.
  - rewrite IH, filter_app, list_filter_filter. do 2 f_equal.
    apply list_filter_iff. intros y. rewrite not_elem_of_cons. naive_solver.
Qed.

Lemma sublist_full_length {A} (l1 l2 : list A) :
  sublist l1 l2 -> length l2 <= length l1 -> l1 = l2.
Proof.
  induction 1 as [|x l1 l2 _ IH|x l1 l2 Hsub _]; simpl; intros Hlen.
  - done.
  - f_equal. apply IH. lia.
  - apply sublist_length in Hsub. lia.
Qed.

(** Deduplicating twice changes nothing: a second run on the output of a
    first one writes the same lines and removes no line. *)
Theorem deduplicate_usage_data_idempotent lines :
  let once := deduplicate_usage_data lines in
  let twice := deduplicate_usage_data (usage_file once) in
  usage_file twice = usage_file once /\ duplicates_removed twice = 0%Z.
Proof.
  intros once twice.
  assert (Hsame : usage_file twice = usage_file once).
  { unfold twice, once. rewrite !deduplicate_first_occurrences.
    apply first_occurrences_NoDup_id, first_occurrences_NoDup. }
  split; [done|].
  change (duplicates_removed twice)
    with (Z.of_nat (length (usage_file once)) - Z.of_nat (length (usage_file twice)))%Z.
  rewrite Hsame. lia.
Qed.

(** A line is removed exactly when the input holds a line twice: the input
    is free of duplicates if and only if the output is the input, and if and
    only if the count of removed duplicates is zero. *)
Theorem no_duplicates_iff_unchanged lines :
  let res := deduplicate_usage_data lines in
  (NoDup lines <-> usage_file res = lines)
  /\ (NoDup lines <-> duplicates_removed res = 0%Z).
Proof.
  intros res.
  assert (Hfo : usage_file res = first_occurrences lines)
    by apply deduplicate_first_occurrences.
  assert (H1 : NoDup lines <-> usage_file res = lines).
  { rewrite Hfo. split; [apply first_occurrences_NoDup_id|].
    intros <-. apply first_occurrences_NoDup. }
  split; [exact H1|]. rewrite H1.
  change (duplicates_removed res)
    with (Z.of_nat (length lines) - Z.of_nat (length (usage_file res)))%Z.
  split; [intros ->; lia|]. intros Hlen.
  apply sublist_full_length; [|lia].
  rewrite Hfo. apply first_occurrences_sublist.
Qed.

(** The first line of the input, the header line that the Report Composer
    later skips, is the first line of the output. *)
Theorem first_line_stays_first lines :
  head (usage_file (deduplicate_usage_data lines)) = head lines.
Proof. rewrite deduplicate_first_occurrences. by destruct lines. Qed.

(** Deduplicating a file in two parts: the output for the whole file is the
    output for the first part followed by the output for the second part
    without the lines that the first part holds. *)
Theorem deduplicate_usage_data_app lines1 lines2 :
  usage_file (deduplicate_usage_data (lines1 ++ lines2)) =
    usage_file (deduplicate_usage_data lines1)
    ++ filter (fun line => line ∉ lines1) (usage_file (deduplicate_usage_data lines2)).
Proof. rewrite !deduplicate_first_occurrences. apply first_occurrences_app. Qed.

(** ** Further properties of the Billing Aggregator *)

Section BillingOutcomes.

Variable float_of_str : string -> option float.
Variable str_of_float : float -> string.

Implicit Types (r : list string) (data : list (list string)) (acc : billing_acc).

Lemma for_each_app {A S} (body : S -> A -> result S) xs ys : forall st,
  for_each body (xs ++ ys) st = Py.bind (for_each body xs st) (for_each body ys).
Proof.
  induction xs as [|x xs IH]; intros st; [done|].
  cbn [app for_each]. destruct (body st x) as [st'|e]; cbn [bind]; [apply IH | done].
Qed.

Lemma billing_step_parses acc r :
  billing_row_error float_of_str r = None ->
  billing_step float_of_str acc r = Ok (billing_update float_of_str acc r).
Proof.
  destruct r as [|c [|field [|d rest]]]; try discriminate; cbn [billing_row_error].
  - by destruct (negb _).
  - destruct (amount_parses float_of_str field) eqn:Hp; [|discriminate]. intros _.
    unfold billing_step, mbind, result_bind, index. cbn [lookup list_lookup bind].
    assert (Ha : (if negb (is_null field) then parse_float float_of_str field
                  else Ok fzero)
                 = Ok (row_amount float_of_str (c :: field :: d :: rest))).
    { revert Hp. unfold amount_parses, row_amount, parse_float. cbn [nth].
      destruct (is_null field); simpl; [done|].
      by destruct (float_of_str field). }
    rewrite Ha. cbn [bind].
    rewrite (absent_or_keep flt).
    rewrite (absent_or_keep (fun a m => flt m a)).
    rewrite (absent_or_keep (fun b l => String.ltb l b)).
    reflexivity.
Qed.

Lemma billing_step_raises acc r e :
  billing_row_error float_of_str r = Some e ->
  billing_step float_of_str acc r = Raise e.
Proof.
  unfold billing_step, mbind, result_bind, index.
  destruct r as [|c [|field [|d rest]]]; cbn [billing_row_error lookup list_lookup bind].
  - by intros [= <-].
  - by intros [= <-].
  - unfold amount_parses, parse_float.
    destruct (is_null field); cbn [orb negb bind]; [by intros [= <-]|].
    destruct (float_of_str field); cbn [negb bind]; by intros [= <-].
  - unfold amount_parses, parse_float.
    destruct (is_null field); cbn [orb negb bind]; [done|].
    destruct (float_of_str field); cbn [negb bind]; [done | by intros [= <-]].
Qed.

Lemma billing_loop_parses data : forall acc,
  Forall (fun r => billing_row_error float_of_str r = None) data ->
  for_each (billing_step float_of_str) data acc
  = Ok (fold_left (billing_update float_of_str) data acc).
Proof.
  induction data as [|r data IH]; intros acc Hall; [done|].
  inversion Hall as [|? ? Hr Hdata]; subst.
  cbn [for_each fold_left]. rewrite (billing_step_parses _ _ Hr). cbn [bind].
  by apply IH.
Qed.

(** The run ends normally as soon as every data row parses, NaN amounts
    included, and writes the summaries of the rows customer by customer. *)
Lemma aggregate_billing_data_parses header rest :
  let data := map billing_fields rest in
  let customers := first_occurrences (map row_customer data) in
  Forall (fun r => billing_row_error float_of_str r = None) data ->
  aggregate_billing_data float_of_str str_of_float (header :: rest) =
    Ok {| summaries := map (summary_of_rows float_of_str data) customers;
          billing_file :=
            billing_header
              :: map (summary_line str_of_float)
                   (map (summary_of_rows float_of_str data) customers);
          log_customers := length customers |}.
Proof.
  intros data customers Hall.
  unfold aggregate_billing_data. unfold mbind, result_bind.
  fold data. rewrite (billing_loop_parses _ _ Hall). cbn [bind].
  destruct (billing_loop_dicts float_of_str data billing_init) as (Ht & _).
  assert (Hkeys : keys (totals (fold_left (billing_update float_of_str) data billing_init))
                  = customers).
  { rewrite Ht, keys_fold_upsert. cbn [billing_init totals keys map app].
    apply filter_all, Forall_true. intros k. apply not_elem_of_nil. }
  rewrite Hkeys.
  rewrite (map_result_ok _ (summary_of_rows float_of_str data)).
  - cbn [bind]. do 2 f_equal.
    rewrite <- Hkeys. unfold keys. by rewrite length_map.
  - apply Forall_forall. intros c Hc. apply summarise_ok.
    by apply first_occurrences_elem.
Qed.

Lemma aggregate_billing_data_raises header before line after e :
  Forall (fun r => billing_row_error float_of_str r = None) (map billing_fields before) ->
  billing_row_error float_of_str (billing_fields line) = Some e ->
  aggregate_billing_data float_of_str str_of_float (header :: before ++ line :: after)
  = Raise e.
Proof.
  intros Hbefore Hline. unfold aggregate_billing_data, mbind, result_bind.
  rewrite map_app, for_each_app, (billing_loop_parses _ _ Hbefore).
  cbn [bind map for_each]. by rewrite (billing_step_raises _ _ _ Hline).
Qed.

Lemma strip_whitespace line : all_chars isspace_char line = true -> strip line = "".
Proof.
  unfold strip. induction line as [|c line IH]; [done|]. cbn [all_chars lstrip].
  intros H. apply andb_true_iff in H as [-> H]. by apply IH.
Qed.

End BillingOutcomes.

(** How a run of the Billing Aggregator ends.  It raises IndexError on a
    file without any line, ends normally exactly when every data line splits
    into at least three fields of which the second is empty, "NULL" or
    accepted by [float], and otherwise raises what the first data line that
    is not so raises: IndexError when it has a single field, else ValueError
    when its amount does not parse, else IndexError for the missing date. *)
Theorem aggregate_billing_data_outcome float_of_str str_of_float :
  aggregate_billing_data float_of_str str_of_float [] = Raise IndexError
  /\ (forall header rest,
        Forall (fun r => billing_row_error float_of_str r = None)
          (map billing_fields rest) <->
        exists res,
          aggregate_billing_data float_of_str str_of_float (header :: rest) = Ok res)
  /\ (forall header before line after e,
        Forall (fun r => billing_row_error float_of_str r = None)
          (map billing_fields before) ->
        billing_row_error float_of_str (billing_fields line) = Some e ->
        aggregate_billing_data float_of_str str_of_float
          (header :: before ++ line :: after) = Raise e).
Proof.
  split; [reflexivity|]. split.
  - intros header rest. split.
    + intros Hall. eexists. by apply aggregate_billing_data_parses.
    + intros [res Hrun].
      destruct (decide (Forall (fun r => billing_row_error float_of_str r = None)
                          (map billing_fields rest))) as [|Hbad]; [done|].
      exfalso. revert res Hrun. generalize header.
      clear header. intros header.
      assert (Hsplit : exists before line after e,
                 rest = before ++ line :: after
                 /\ Forall (fun r => billing_row_error float_of_str r = None)
                      (map billing_fields before)
                 /\ billing_row_error float_of_str (billing_fields line) = Some e).
      { clear header. induction rest as [|l rest IH]; [by destruct Hbad; constructor|].
        destruct (billing_row_error float_of_str (billing_fields l)) as [e|] eqn:Hl.
        - exists [], l, rest, e. repeat split; [constructor | done].
        - destruct IH as (before & line & after & e & -> & Hb & He).
          { intros Hall. apply Hbad. by constructor. }
          exists (l :: before), line, after, e. repeat split; [by constructor | done]. }
      destruct Hsplit as (before & line & after & e & -> & Hb & He).
      intros res Hrun.
      rewrite (aggregate_billing_data_raises _ _ _ _ _ _ _ Hb He) in Hrun. discriminate.
  - intros header before line after e. apply aggregate_billing_data_raises.
Qed.

(** A blank data line stops the aggregation: when a data line holds nothing
    but whitespace (an empty last line, for one) and the data lines before it
    parse, the run raises IndexError and writes no summary. *)
Theorem blank_line_aborts_aggregation float_of_str str_of_float header before line after :
  Forall (fun r => billing_row_error float_of_str r = None) (map billing_fields before) ->
  all_chars isspace_char line = true ->
  aggregate_billing_data float_of_str str_of_float (header :: before ++ line :: after)
  = Raise IndexError.
Proof.
  intros Hbefore Hblank. apply aggregate_billing_data_raises; [done|].
  unfold billing_fields. by rewrite strip_whitespace.
Qed.

Lemma blank_line_aborts_aggregation_witness :
  Forall (fun r => billing_row_error float_of_digits r = None)
    (map billing_fields (tail sample_billing))
  /\ all_chars isspace_char nl = true
  /\ aggregate_billing_data float_of_digits (fun _ => "?")
       (("customer_id|amount|billing_date" +:+ nl) :: tail sample_billing ++ nl :: [])
     = Raise IndexError.
Proof.
  assert (H : Forall (fun r => billing_row_error float_of_digits r = None)
                (map billing_fields (tail sample_billing)))
    by (repeat constructor).
  split; [exact H|]. split; [reflexivity|].
  exact (blank_line_aborts_aggregation float_of_digits (fun _ => "?") _ _ nl []
           H eq_refl).
Defined.

(** The minimum and the maximum of a summary are amounts of rows of that
    customer, and the minimum is at most the maximum, on a billing file whose
    amounts are empty, "NULL" or numbers. *)
Theorem min_max_are_amounts float_of_str str_of_float header rest c :
  let data := map billing_fields rest in
  let amounts := map (row_amount float_of_str) (rows_of c data) in
  Forall (fun r => billing_row_ok float_of_str r = true) data ->
  c ∈ map row_customer data ->
  exists res s,
    aggregate_billing_data float_of_str str_of_float (header :: rest) = Ok res
    /\ s ∈ summaries res
    /\ cust_id s = c
    /\ min_amount s ∈ amounts
    /\ max_amount s ∈ amounts
    /\ fle (min_amount s) (max_amount s) = true.
Proof.
  intros data amounts Hall Hc.
  pose proof (aggregate_billing_data_ok float_of_str str_of_float header rest Hall)
    as Hrun.
  fold data in Hrun.
  destruct (summary_of_rows_spec float_of_str data c Hall Hc)
    as (Hmin & _ & Hmin_in & Hmax_in & _).
  eexists. exists (summary_of_rows float_of_str data c).
  split; [exact Hrun|]. cbn [summaries].
  split.
  { apply (list_elem_of_fmap_2 (summary_of_rows float_of_str data)).
    by apply first_occurrences_elem. }
  split; [done|]. split; [done|]. split; [done|].
  apply list_elem_of_fmap in Hmax_in as (r & -> & Hr).
  rewrite Forall_forall in Hmin. by apply Hmin.
Qed.

Lemma min_max_are_amounts_witness :
  let data := map billing_fields (tail sample_billing) in
  let amounts := map (row_amount float_of_digits) (rows_of "C1" data) in
  Forall (fun r => billing_row_ok float_of_digits r = true) data
  /\ "C1" ∈ map row_customer data
  /\ exists res s,
       aggregate_billing_data float_of_digits (fun _ => "?")
         (("customer_id|amount|billing_date" +:+ nl) :: tail sample_billing) = Ok res
       /\ s ∈ summaries res
       /\ cust_id s = "C1"
       /\ min_amount s ∈ amounts
       /\ max_amount s ∈ amounts
       /\ fle (min_amount s) (max_amount s) = true.
Proof.
  assert (H1 : Forall (fun r => billing_row_ok float_of_digits r = true)
                 (map billing_fields (tail sample_billing)))
    by (repeat constructor).
  assert (H2 : "C1" ∈ map row_customer (map billing_fields (tail sample_billing)))
    by apply list_elem_of_here.
  split; [exact H1|]. split; [exact H2|].
  exact (min_max_are_amounts float_of_digits (fun _ => "?")
           ("customer_id|amount|billing_date" +:+ nl) (tail sample_billing) "C1" H1 H2).
Defined.

(** The summary of a customer is made from the rows of that customer alone:
    two billing files that both parse and hold the same rows for a customer,
    in the same order, give that customer the same summary, whatever the
    other rows and the header lines are. *)
Theorem summary_depends_on_own_rows float_of_str str_of_float
    header1 rest1 header2 rest2 res1 res2 c s1 s2 :
  aggregate_billing_data float_of_str str_of_float (header1 :: rest1) = Ok res1 ->
  aggregate_billing_data float_of_str str_of_float (header2 :: rest2) = Ok res2 ->
  rows_of c (map billing_fields rest1) = rows_of c (map billing_fields rest2) ->
  s1 ∈ summaries res1 -> cust_id s1 = c ->
  s2 ∈ summaries res2 -> cust_id s2 = c ->
  s1 = s2.
Proof.
  intros Hrun1 Hrun2 Hrows Hs1 Hc1 Hs2 Hc2.
  destruct (aggregate_billing_data_outcome float_of_str str_of_float) as (_ & Hiff & _).
  pose proof (proj2 (Hiff header1 rest1) (ex_intro _ res1 Hrun1)) as H1.
  pose proof (proj2 (Hiff header2 rest2) (ex_intro _ res2 Hrun2)) as H2.
  rewrite (aggregate_billing_data_parses _ str_of_float header1 rest1 H1) in Hrun1.
  rewrite (aggregate_billing_data_parses _ str_of_float header2 rest2 H2) in Hrun2.
  injection Hrun1 as <-. injection Hrun2 as <-. cbn [summaries] in Hs1, Hs2.
  apply list_elem_of_fmap in Hs1 as (c1 & -> & _).
  apply list_elem_of_fmap in Hs2 as (c2 & -> & _).
  cbn [summary_of_rows cust_id] in Hc1, Hc2. subst c1 c2.
  unfold summary_of_rows. by rewrite Hrows.
Qed.

Lemma summary_depends_on_own_rows_witness :
  let data1 := map billing_fields (tail sample_billing) in
  let lines2 := [ "C1|10|2024-01-05"; "C1|20|2024-01-10"; "C7|3|2023-12-31" ] in
  let s1 := summary_of_rows float_of_digits data1 "C1" in
  let s2 := summary_of_rows float_of_digits (map billing_fields lines2) "C1" in
  exists res1 res2,
    aggregate_billing_data float_of_digits (fun _ => "?") sample_billing = Ok res1
    /\ aggregate_billing_data float_of_digits (fun _ => "?") ("id|amount|date" :: lines2)
       = Ok res2
    /\ rows_of "C1" data1 = rows_of "C1" (map billing_fields lines2)
    /\ s1 ∈ summaries res1
    /\ s2 ∈ summaries res2
    /\ s1 = s2.
Proof.
  intros data1 lines2 s1 s2. do 2 eexists.
  split; [reflexivity|]. split; [reflexivity|]. split; [reflexivity|].
  split; [apply list_elem_of_here|]. split; [apply list_elem_of_here|].
  apply (summary_depends_on_own_rows float_of_digits (fun _ => "?")
           ("customer_id|amount|billing_date" +:+ nl) (tail sample_billing)
           "id|amount|date" lines2 _ _ "C1" s1 s2 eq_refl eq_refl eq_refl).
  - apply list_elem_of_here.
  - reflexivity.
  - apply list_elem_of_here.
  - reflexivity.
Defined.

(** ** Further properties of the Report Composer *)

Lemma report_sections_witness :
  exists report,
    create_final_report float_of_digits (fun _ => "?") (fun _ => "?")
      "2024-01-07 00:00:00" "2024-01-07 00:00:01"
      [out_header] usage_two_lines [billing_header] = Ok report
    /\ times_written customer_heading report = 1
    /\ times_written usage_heading report = length (tail usage_two_lines)
    /\ times_written billing_heading report = 1
    /\ times_written summary_heading report = 1.
Proof.
  eexists. split; [reflexivity|].
  exact (report_sections float_of_digits (fun _ => "?") (fun _ => "?")
           "2024-01-07 00:00:00" "2024-01-07 00:00:01"
           [out_header] usage_two_lines [billing_header] _ eq_refl).
Defined.

Lemma count_active_seven rows :
  Forall (fun r : row => length r = 7) rows ->
  count_active rows =
    Ok (Z.of_nat (length (filter (fun r => nth 5 r "" = "ACTIVE") rows))).
Proof.
  induction 1 as [|r rows Hr _ IH]; [done|].
  cbn [count_active]. unfold mbind, result_bind.
  rewrite (index_nth r 5 "") by lia. cbn [bind]. rewrite IH. cbn [bind]. f_equal.
  destruct (String.eqb_spec (nth 5 r "") "ACTIVE") as [Heq|Hne].
  - rewrite filter_cons_True by done. cbn [length].
    rewrite Nat2Z.inj_succ, <- Z.add_1_l. reflexivity.
  - by rewrite filter_cons_False.
Qed.

(** The customer block of the report agrees with the Cleanser.  On the
    cleaned file of a run of the Cleanser the count of active customers never
    raises, and a report that gets written shows, as its third and fourth
    chunk, the number of cleaned rows the Cleanser logged and the number of
    cleaned rows whose status is "ACTIVE". *)
Theorem report_counts_cleaned_customers float_of_str str_of_float format_2f
    now_title now_footer rows res usage_lines billing_lines report :
  clean_customer_data rows = Ok res ->
  create_final_report float_of_str str_of_float format_2f now_title now_footer
    (output_file res) usage_lines billing_lines = Ok report ->
  let active := filter (fun r => nth 5 r "" = "ACTIVE") (cleaned_data res) in
  count_active (from_1 (output_file res)) = Ok (Z.of_nat (length active))
  /\ report !! 2 =
     Some ("  - Total customers processed: "
           +:+ str_of_int (Z.of_nat (log_output res)) +:+ nl)
  /\ report !! 3 =
     Some ("  - Active customers: " +:+ str_of_int (Z.of_nat (length active))
           +:+ nl +:+ nl).
Proof.
  intros Hrun Hreport active.
  destruct (clean_customer_data_inv _ _ Hrun) as (header & data & -> & Hall).
  destruct (clean_customer_data_seven header data Hall)
    as (res' & Hres & Hcl & _ & Hout & _ & _ & _ & Hlo & _).
  rewrite Hrun in Hres. injection Hres as <-.
  assert (H7 : Forall (fun r : row => length r = 7) (cleaned_data res))
    by (rewrite Hcl; apply Forall_fmap, Forall_true; intros r; apply clean_row_length).
  assert (Hactive : count_active (from_1 (output_file res)) = Ok (Z.of_nat (length active)))
    by (rewrite Hout; apply (count_active_seven _ H7)).
  split; [exact Hactive|].
  unfold create_final_report in Hreport. unfold mbind, result_bind in Hreport.
  rewrite Hactive in Hreport. cbn [bind] in Hreport.
  destruct (for_each _ _ _) as [u|e] eqn:Hloop; [|discriminate]. cbn [bind] in Hreport.
  destruct (sum_revenue _ _) as [revenue|e]; [|discriminate]. cbn [bind] in Hreport.
  injection Hreport as <-.
  destruct (usage_loop_written _ _ _ _ _ _ Hloop) as (body & -> & _).
  cbn [written app]. rewrite Hout. cbn [length lookup list_lookup].
  replace (Z.of_nat (S (length (cleaned_data res))) - 1)%Z
    with (Z.of_nat (log_output res)) by (rewrite Hlo; lia).
  done.
Qed.

Lemma report_counts_cleaned_customers_witness :
  exists res report,
    clean_customer_data sample_customers = Ok res
    /\ create_final_report float_of_digits (fun _ => "?") (fun _ => "?")
         "2024-01-07 00:00:00" "2024-01-07 00:00:01"
         (output_file res) usage_two_lines [billing_header] = Ok report
    /\ count_active (from_1 (output_file res)) = Ok 2%Z
    /\ report !! 2 = Some ("  - Total customers processed: 2" +:+ nl)
    /\ report !! 3 = Some ("  - Active customers: 2" +:+ nl +:+ nl).
Proof.
  do 2 eexists. split; [reflexivity|]. split; [reflexivity|].
  exact (report_counts_cleaned_customers float_of_digits (fun _ => "?") (fun _ => "?")
           "2024-01-07 00:00:00" "2024-01-07 00:00:01"
           sample_customers _ usage_two_lines [billing_header] _ eq_refl eq_refl).
Defined.

Section UsageGuard.

Lemma all_chars_app p a b :
  all_chars p (a +:+ b) = all_chars p a && all_chars p b.
Proof.
  induction a as [|c a IH]; [done|].
  change (String c a +:+ b) with (String c (a +:+ b)).
  cbn [all_chars]. by rewrite IH, andb_assoc.
Qed.

Lemma isdigit_nonempty s :
  isdigit s = true <-> all_chars isdigit_char s = true /\ s <> "".
Proof. destruct s; cbn [isdigit]; split; try done; by intros [? ?]. Qed.

Lemma remove_first_dot_digits a b :
  all_chars isdigit_char a = true ->
  remove_first "." (a +:+ "." +:+ b) = a +:+ b.
Proof.
  induction a as [|c a IH]; [done|]. cbn [all_chars]. intros H.
  apply andb_true_iff in H as [Hc Ha].
  change (String c a +:+ "." +:+ b) with (String c (a +:+ "." +:+ b)).
  change (String c a +:+ b) with (String c (a +:+ b)).
  cbn [remove_first].
  destruct (Ascii.eqb_spec c ".") as [->|_]; [discriminate Hc|].
  f_equal. by apply IH.
Qed.

Lemma remove_first_dot_inv s :
  all_chars isdigit_char (remove_first "." s) = true ->
  all_chars isdigit_char s = true
  \/ exists a b, s = a +:+ "." +:+ b
                 /\ all_chars isdigit_char a = true /\ all_chars isdigit_char b = true.
Proof.
  induction s as [|c s IH]; [by left|]. cbn [remove_first].
  destruct (Ascii.eqb_spec c ".") as [->|Hc].
  - intros Hs. right. by exists "", s.
  - cbn [all_chars]. intros H. apply andb_true_iff in H as [Hd Hs].
    destruct (IH Hs) as [Hall|(a & b & -> & Ha & Hb)].
    + left. by rewrite Hd, Hall.
    + right. exists (String c a), b. cbn [all_chars]. by rewrite Hd, Ha.
Qed.

End UsageGuard.

(** Which third fields the usage total takes in: the guard
    [parts[2].replace('.', '', 1).isdigit()] holds exactly on a run of digits
    with at least one digit and at most one '.' in it, before, between or
    behind the digits.  A sign, an exponent or a blank in the field keeps the
    line out of the total. *)
Theorem usage_field_counted_shape field :
  isdigit (remove_first "." field) = true <->
  isdigit field = true
  \/ exists a b,
       field = a +:+ "." +:+ b
       /\ all_chars isdigit_char a = true
       /\ all_chars isdigit_char b = true
       /\ a +:+ b <> "".
Proof.
  split.
  - intros H. apply isdigit_nonempty in H as [Hall Hne].
    destruct (remove_first_dot_inv _ Hall) as [Hd|(a & b & -> & Ha & Hb)].
    + left. apply isdigit_nonempty. split; [done|]. by destruct field.
    + right. exists a, b. rewrite remove_first_dot_digits in Hne by done. done.
  - intros [H|(a & b & -> & Ha & Hb & Hne)].
    + apply isdigit_nonempty in H as [Hall Hne].
      assert (Hsame : remove_first "." field = field).
      { clear Hne. induction field as [|c s IH]; [done|]. cbn [all_chars] in Hall.
        apply andb_true_iff in Hall as [Hc Hs]. cbn [remove_first].
        destruct (Ascii.eqb_spec c ".") as [->|_]; [discriminate Hc|].
        f_equal. by apply IH. }
      rewrite Hsame. by apply isdigit_nonempty.
    + rewrite remove_first_dot_digits by done. apply isdigit_nonempty.
      split; [|done]. by rewrite all_chars_app, Ha, Hb.
Qed.

Section UsageTotal.

Variable float_of_str : string -> option float.
Variable str_of_float : float -> string.

Lemma usage_step_inv n acc line acc1 :
  usage_step float_of_str str_of_float n acc line = Ok acc1 ->
  written acc1 = written acc ++
    [ usage_heading;
      "  - Total usage records: " +:+ str_of_int (Z.of_nat n) +:+ nl;
      "  - Total data usage (MB): " +:+ str_of_float (total_data_usage acc1)
        +:+ nl +:+ nl ]
  /\ (if usage_counted line
      then exists x, float_of_str (usage_field line) = Some x
                     /\ total_data_usage acc1 = fadd (total_data_usage acc) x
      else total_data_usage acc1 = total_data_usage acc).
Proof.
  unfold usage_step, usage_counted, usage_field, mbind, result_bind, parse_float.
  destruct (_ && _).
  - destruct (float_of_str _) as [x|]; cbn [bind]; [|discriminate].
    intros [= <-]. split; [done|]. by exists x.
  - cbn [bind]. by intros [= <-].
Qed.

(** The running total after the loop is the sum of the fields taken in, and
    the last three chunks written are the usage block with that total. *)
Lemma usage_loop_total n lines : forall acc u,
  for_each (usage_step float_of_str str_of_float n) lines acc = Ok u ->
  exists amounts,
    Forall2 (fun line x => float_of_str (usage_field line) = Some x)
      (filter (fun line => usage_counted line = true) lines) amounts
    /\ total_data_usage u = fold_left fadd amounts (total_data_usage acc)
    /\ (lines <> [] ->
        exists front,
          length front = length (written acc) + 3 * (length lines - 1)
          /\ written u = front ++
               [ usage_heading;
                 "  - Total usage records: " +:+ str_of_int (Z.of_nat n) +:+ nl;
                 "  - Total data usage (MB): " +:+ str_of_float (total_data_usage u)
                   +:+ nl +:+ nl ]).
Proof.
  induction lines as [|line lines IH]; intros acc u Hrun.
  - injection Hrun as <-. exists []. split; [constructor|]. split; done.
  - cbn [for_each] in Hrun.
    destruct (usage_step float_of_str str_of_float n acc line) as [acc1|e] eqn:Hstep;
      [|discriminate].
    cbn [bind] in Hrun. destruct (IH _ _ Hrun) as (amounts & Hparse & Htotal & Hlast).
    destruct (usage_step_inv _ _ _ _ Hstep) as [Hw Hcount].
    assert (Hblocks : exists front,
              length front = length (written acc) + 3 * (length (line :: lines) - 1)
              /\ written u = front ++
                   [ usage_heading;
                     "  - Total usage records: " +:+ str_of_int (Z.of_nat n) +:+ nl;
                     "  - Total data usage (MB): "
                       +:+ str_of_float (total_data_usage u) +:+ nl +:+ nl ]).
    { destruct lines as [|line' lines'].
      - injection Hrun as <-. exists (written acc). split; [cbn; lia | exact Hw].
      - destruct Hlast as (front & Hlen & Hwu); [done|].
        exists front. split; [|done]. rewrite Hlen, Hw, length_app. cbn. lia. }
    destruct (usage_counted line) eqn:Hc.
    + destruct Hcount as (x & Hx & Hadd). exists (x :: amounts).
      rewrite filter_cons_True by done. split; [by constructor|].
      split; [|done]. cbn [fold_left]. by rewrite <- Hadd.
    + exists amounts. rewrite filter_cons_False by congruence.
      split; [done|]. split; [|done]. by rewrite <- Hcount.
Qed.

End UsageTotal.

(** The usage total of the report.  In a report that gets written for a
    usage file with at least one data line, the data-usage line of the last
    usage block shows the float sum, in file order, of [float] of the third
    fields of the data lines that pass the guard; every such field parsed,
    and the lines that fail the guard were never handed to [float]. *)
Theorem report_usage_total float_of_str str_of_float format_2f
    now_title now_footer customer_rows usage_lines billing_lines report :
  create_final_report float_of_str str_of_float format_2f now_title now_footer
    customer_rows usage_lines billing_lines = Ok report ->
  let data_lines := from_1 (map strip usage_lines) in
  data_lines <> [] ->
  exists amounts,
    Forall2 (fun line x => float_of_str (usage_field line) = Some x)
      (filter (fun line => usage_counted line = true) data_lines) amounts
    /\ report !! (3 * length data_lines + 3) =
       Some ("  - Total data usage (MB): " +:+ str_of_float (fsum amounts)
             +:+ nl +:+ nl).
Proof.
  intros Hreport data_lines Hne.
  unfold create_final_report in Hreport. unfold mbind, result_bind in Hreport.
  destruct (count_active _) as [active|e]; [|discriminate]. cbn [bind] in Hreport.
  destruct (for_each _ _ _) as [u|e] eqn:Hloop; [|discriminate]. cbn [bind] in Hreport.
  destruct (sum_revenue _ _) as [revenue|e]; [|discriminate]. cbn [bind] in Hreport.
  injection Hreport as <-.
  destruct (usage_loop_total _ _ _ _ _ _ Hloop) as (amounts & Hparse & Htotal & Hlast).
  destruct (Hlast Hne) as (front & Hlen & ->).
  exists amounts. split; [exact Hparse|].
  cbn [written total_data_usage app length] in Hlen, Htotal.
  fold data_lines in Hlen.
  assert (Hn : 3 * length data_lines + 3 = length front + 2)
    by (destruct data_lines; [done | cbn [length] in *; lia]).
  rewrite Hn, <- app_assoc, lookup_app_r by lia.
  replace (length front + 2 - length front) with 2 by lia.
  cbn [app lookup list_lookup]. by rewrite Htotal.
Qed.

Lemma report_usage_total_witness :
  exists report amounts,
    create_final_report float_of_digits (fun _ => "?") (fun _ => "?")
      "2024-01-07 00:00:00" "2024-01-07 00:00:01"
      [out_header] usage_two_lines [billing_header] = Ok report
    /\ from_1 (map strip usage_two_lines) <> []
    /\ Forall2 (fun line x => float_of_digits (usage_field line) = Some x)
         (filter (fun line => usage_counted line = true)
            (from_1 (map strip usage_two_lines))) amounts
    /\ report !! (3 * length (from_1 (map strip usage_two_lines)) + 3) =
       Some ("  - Total data usage (MB): " +:+ (fun _ => "?") (fsum amounts)
             +:+ nl +:+ nl).
Proof.
  eexists.
  assert (Hne : from_1 (map strip usage_two_lines) <> []) by discriminate.
  destruct (report_usage_total float_of_digits (fun _ => "?") (fun _ => "?")
              "2024-01-07 00:00:00" "2024-01-07 00:00:01"
              [out_header] usage_two_lines [billing_header] _ eq_refl Hne)
    as (amounts & H).
  exists amounts. split; [reflexivity|]. split; [exact Hne | exact H].
Defined.

(** ** Lines written and read back *)

Section TextFiles.

Lemma universal_newlines_no_CR text :
  all_chars (fun c => negb (Ascii.eqb c CR)) (universal_newlines text) = true.
Proof.
  remember (String.length text) as n eqn:Hn. revert text Hn.
  induction n as [n IH] using lt_wf_ind. intros text ->.
  assert (IH' : forall t, String.length t < String.length text ->
            all_chars (fun c => negb (Ascii.eqb c CR)) (universal_newlines t) = true)
    by (intros t Ht; by eapply IH).
  clear IH. rename IH' into IH.
  destruct text as [|c rest]; [done|]. cbn [universal_newlines].
  destruct (Ascii.eqb_spec c CR) as [->|Hc].
  - cbn [all_chars]. destruct rest as [|c' rest']; [done|].
    destruct (Ascii.eqb c' LF); cbn [andb negb]; apply IH; cbn; lia.
  - cbn [all_chars]. rewrite (proj2 (Ascii.eqb_neq c CR) Hc). cbn [negb andb].
    apply IH. cbn. lia.
Qed.

Lemma universal_newlines_id s :
  all_chars (fun c => negb (Ascii.eqb c CR)) s = true -> universal_newlines s = s.
Proof.
  induction s as [|c s IH]; [done|]. cbn [all_chars universal_newlines].
  intros H. apply andb_true_iff in H as [Hc Hs].
  apply negb_true_iff in Hc. rewrite Hc. f_equal. by apply IH.
Qed.

Lemma concat_lines_of text : String.concat "" (lines_of text) = text.
Proof.
  induction text as [|c rest IH]; [done|]. cbn [lines_of].
  destruct (Ascii.eqb c LF).
  - change (String.concat "" (String c "" :: lines_of rest))
      with (match lines_of rest with
            | [] => String c ""
            | _ => String c "" +:+ "" +:+ String.concat "" (lines_of rest)
            end).
    rewrite IH. destruct (lines_of rest) eqn:E; [|done].
    cbn in IH. by rewrite <- IH.
  - destruct (lines_of rest) as [|l ls] eqn:E.
    + cbn in IH. by rewrite <- IH.
    + rewrite <- IH. cbn [String.concat]. by destruct ls.
Qed.

End TextFiles.

Section FileLines.

Lemma no_line_end_no_CR s :
  no_line_end s = true -> all_chars (fun c => negb (Ascii.eqb c CR)) s = true.
Proof.
  unfold no_line_end. induction s as [|c s IH]; [done|]. cbn [all_chars].
  intros H. apply andb_true_iff in H as [Hc Hs].
  apply andb_true_iff in Hc as [_ Hc]. rewrite Hc. by apply IH.
Qed.

Lemma lines_of_terminated body text :
  no_line_end body = true ->
  lines_of (body +:+ nl +:+ text) = (body +:+ nl) :: lines_of text.
Proof.
  unfold no_line_end. induction body as [|c body IH]; [done|].
  cbn [all_chars]. intros H. apply andb_true_iff in H as [Hc Hb].
  apply andb_true_iff in Hc as [Hc _]. apply negb_true_iff in Hc.
  change (String c body +:+ nl +:+ text) with (String c (body +:+ nl +:+ text)).
  cbn [lines_of]. rewrite Hc, (IH Hb). done.
Qed.

Lemma lines_of_unterminated z :
  no_line_end z = true -> z <> "" -> lines_of z = [z].
Proof.
  unfold no_line_end. induction z as [|c z IH]; [done|].
  cbn [all_chars]. intros H _. apply andb_true_iff in H as [Hc Hz].
  apply andb_true_iff in Hc as [Hc _]. apply negb_true_iff in Hc.
  cbn [lines_of]. rewrite Hc. destruct z as [|c' z']; [done|].
  by rewrite (IH Hz).
Qed.

Lemma terminated_not_unterminated line z :
  terminated line -> no_line_end z = true -> line <> z.
Proof.
  intros (body & _ & ->) Hz <-. revert Hz. unfold no_line_end.
  induction body as [|c body IH]; [done|].
  change (String c body +:+ nl) with (String c (body +:+ nl)).
  cbn [all_chars]. intros H. apply andb_true_iff in H as [_ H]. by apply IH.
Qed.

(** The lines of a text free of carriage returns have the shape of file
    lines. *)
Lemma lines_of_file_lines text :
  all_chars (fun c => negb (Ascii.eqb c CR)) text = true -> file_lines (lines_of text).
Proof.
  induction text as [|c text IH]; cbn [all_chars lines_of].
  - intros _. exists [], []. repeat split; [constructor | by left].
  - intros H. apply andb_true_iff in H as [Hc Htext].
    destruct (IH Htext) as (init & rest & Hsplit & Hinit & Hrest).
    destruct (Ascii.eqb_spec c LF) as [->|Hlf].
    + exists (String LF "" :: init), rest. rewrite Hsplit.
      repeat split; [|done]. constructor; [|done]. by exists "".
    + assert (Hbody : forall b, no_line_end b = true -> no_line_end (String c b) = true).
      { intros b Hb. unfold no_line_end in *. cbn [all_chars].
        by rewrite Hb, Hc, (proj2 (Ascii.eqb_neq c LF) Hlf). }
      rewrite Hsplit. destruct init as [|l init].
      * destruct Hrest as [->|(z & -> & Hz & _)].
        -- exists [], [String c ""]. repeat split; [constructor|].
           right. exists (String c ""). repeat split; [|done]. by apply Hbody.
        -- exists [], [String c z]. repeat split; [constructor|].
           right. exists (String c z). repeat split; [|done]. by apply Hbody.
      * inversion Hinit as [|? ? (body & Hb & ->) Hinit']; subst.
        exists (String c (body +:+ nl) :: init), rest.
        repeat split; [|done]. constructor; [|done].
        exists (String c body). split; [by apply Hbody | done].
Qed.

(** File lines free of carriage returns are read back as they were
    written. *)
Lemma readlines_writelines lines :
  file_lines lines -> readlines (writelines lines) = lines.
Proof.
  intros (init & rest & -> & Hinit & Hrest). unfold readlines, writelines.
  assert (Hlines : lines_of (String.concat "" (init ++ rest)) = init ++ rest
                   /\ all_chars (fun c => negb (Ascii.eqb c CR))
                        (String.concat "" (init ++ rest)) = true).
  { induction Hinit as [|line init (body & Hb & ->) _ IH]; cbn [app].
    - destruct Hrest as [->|(z & -> & Hz & Hne)]; [done|]. cbn [String.concat].
      split; [by apply lines_of_unterminated | by apply no_line_end_no_CR].
    - destruct IH as [IH1 IH2].
      assert (Hcat : String.concat "" ((body +:+ nl) :: init ++ rest)
                     = body +:+ nl +:+ String.concat "" (init ++ rest)).
      { cbn [String.concat]. destruct (init ++ rest) as [|x xs]; cbn [String.concat].
        - clear. induction body as [|c b IHb]; [done|].
          change (String c b +:+ nl) with (String c (b +:+ nl)).
          change (String c b +:+ nl +:+ "") with (String c (b +:+ nl +:+ "")).
          by rewrite IHb.
        - clear. induction body as [|c b IHb]; [done|].
          change (String c b +:+ nl) with (String c (b +:+ nl)).
          change (String c b +:+ nl +:+ ?t) with (String c (b +:+ nl +:+ t)).
          change (String c (b +:+ nl) +:+ ?t) with (String c ((b +:+ nl) +:+ t)).
          by rewrite IHb. }
      rewrite Hcat. split.
      + rewrite lines_of_terminated by done. by rewrite IH1.
      + rewrite all_chars_app, all_chars_app, IH2, (no_line_end_no_CR _ Hb). done. }
  destruct Hlines as [H1 H2]. by rewrite universal_newlines_id.
Qed.

(** Keeping first occurrences keeps the shape of file lines: the one line
    that may lack its line feed is unlike every other line, so it stays
    last. *)
Lemma first_occurrences_file_lines lines :
  file_lines lines -> file_lines (first_occurrences lines).
Proof.
  intros (init & rest & -> & Hinit & Hrest).
  assert (Hfo : Forall terminated (first_occurrences init)).
  { apply Forall_forall. intros x Hx.
    pose proof (proj1 (first_occurrences_elem init x) Hx) as Hx'.
    exact (proj1 (Forall_forall _ _) Hinit x Hx'). }
  destruct Hrest as [->|(z & -> & Hz & Hne)].
  - rewrite app_nil_r. exists (first_occurrences init), [].
    rewrite app_nil_r. split; [done|]. split; [done|]. by left.
  - rewrite first_occurrences_app. cbn [first_occurrences filter].
    exists (first_occurrences init), [z]. split; [|split; [done|]].
    + f_equal. cbn. rewrite decide_True; [done|].
      intros Hin. rewrite Forall_forall in Hinit.
      by apply (terminated_not_unterminated z z (Hinit z Hin) Hz).
    + right. by exists z.
Qed.

End FileLines.

(** Reading keeps the text: the lines that [readlines] gives, written one
    behind the other, are the stored text with its "\r\n" and "\r" turned
    into "\n". *)
Theorem writelines_readlines stored :
  writelines (readlines stored) = universal_newlines stored.
Proof. unfold writelines, readlines. apply concat_lines_of. Qed.

(** The deduplicated usage file is read back as it was written: the lines
    that the Deduplicator writes for the lines read from any usage file are,
    line by line, what the Report Composer reads from the written file. *)
Theorem deduplicated_file_reads_back stored :
  let written := usage_file (deduplicate_usage_data (readlines stored)) in
  readlines (writelines written) = written.
Proof.
  intros written. apply readlines_writelines.
  unfold written. rewrite deduplicate_first_occurrences.
  apply first_occurrences_file_lines, lines_of_file_lines, universal_newlines_no_CR.
Qed.

(** ** The validator and main *)

Section Validator.

Implicit Types (files : list (string * file unit)).

Lemma validate_loop_readable files :
  Forall (fun pf => file_access pf.2 = true) files ->
  validate_loop files =
    (map (fun pf => (INFO, "Validated file: " +:+ pf.1)) files, Done tt).
Proof.
  induction 1 as [|[path f] files Hf _ IH]; [done|].
  cbn [validate_loop]. destruct f; try discriminate Hf.
  cbn [file_exists file_access negb]. unfold mbind, logged_bind.
  cbn [and_then log_message]. by rewrite IH.
Qed.

Lemma validate_loop_stops before path f after :
  Forall (fun pf => file_access pf.2 = true) before ->
  file_access f = false ->
  validate_loop (before ++ (path, f) :: after) =
    ( map (fun pf => (INFO, "Validated file: " +:+ pf.1)) before
      ++ [ (ERROR, if file_exists f then "File not readable: " +:+ path
                   else "Required file not found: " +:+ path) ],
      Failed (if file_exists f then PermissionError ("Cannot read file: " +:+ path)
              else FileNotFoundError ("Missing input file: " +:+ path)) ).
Proof.
  intros Hbefore Hf. induction Hbefore as [|[p0 f0] before Hf0 _ IH].
  - cbn [app map validate_loop]. destruct f as [| |[]]; try discriminate Hf; done.
  - cbn [app map validate_loop]. destruct f0; try discriminate Hf0.
    cbn [file_exists file_access negb]. unfold mbind, logged_bind.
    cbn [and_then log_message]. by rewrite IH.
Qed.

End Validator.

(** How the validator ends.  When the three input files are there and may be
    read, it logs each of them as validated, in the order customer, usage,
    billing, and ends normally.  Otherwise it stops at the first file that is
    missing or may not be read: it logs the files before it as validated,
    logs one ERROR entry that names the path, and raises FileNotFoundError
    for a missing file, PermissionError for one that may not be read; the
    files behind it are not looked at. *)
Theorem validate_input_files_outcome SCRIPT_DIR inp :
  let files := required_files SCRIPT_DIR inp in
  let validated := fun pf : string * file unit =>
                     (INFO, "Validated file: " +:+ pf.1) in
  (Forall (fun pf => file_access pf.2 = true) files ->
   validate_input_files SCRIPT_DIR inp =
     ( (INFO, "Validating input files...") :: map validated files
       ++ [(INFO, "All input files validated successfully")],
       Done tt ))
  /\ (forall before path f after,
        files = before ++ (path, f) :: after ->
        Forall (fun pf => file_access pf.2 = true) before ->
        file_access f = false ->
        validate_input_files SCRIPT_DIR inp =
          ( (INFO, "Validating input files...") :: map validated before
            ++ [ (ERROR, if file_exists f then "File not readable: " +:+ path
                         else "Required file not found: " +:+ path) ],
            Failed (if file_exists f
                    then PermissionError ("Cannot read file: " +:+ path)
                    else FileNotFoundError ("Missing input file: " +:+ path)) )).
Proof.
  intros files validated. split.
  - intros Hall. unfold validate_input_files, mbind, logged_bind.
    fold files. rewrite (validate_loop_readable _ Hall). done.
  - intros before path f after Hsplit Hbefore Hf.
    unfold validate_input_files, mbind, logged_bind.
    fold files. rewrite Hsplit, (validate_loop_stops _ _ _ _ Hbefore Hf). done.
Qed.

(** With the usage file missing (and the customer file in place): one file
    validated, then the ERROR entry and the exception for the usage file. *)
Example validate_missing_usage_file :
  validate_input_files "/opt/etl"
    {| customer_data := Readable sample_customers;
       usage_data := Missing;
       billing_records := Unreadable |}
  = ( [ (INFO, "Validating input files...");
        (INFO, "Validated file: /opt/etl/sample_data/customer_data.csv");
        (ERROR, "Required file not found: /opt/etl/sample_data/usage_data.txt") ],
      Failed (FileNotFoundError
                "Missing input file: /opt/etl/sample_data/usage_data.txt") ).
Proof. reflexivity. Qed.

Section MainFacts.

Variable SCRIPT_DIR : string.
Variables now_title now_footer today : string.
Variable float_of_str : string -> option float.
Variable str_of_float : float -> string.
Variable format_2f : float -> string.

Ltac entry_in :=
  repeat first [apply list_elem_of_here | apply list_elem_of_further].

Ltac entry_not_in H :=
  exfalso;
  repeat (apply elem_of_cons in H as [H|H];
          [clear -H; cbv [String.append] in H; discriminate H|]);
  by apply elem_of_nil in H.

Ltac leaf :=
  repeat match goal with
    | |- _ /\ _ => split
    | |- _ <-> _ => split
    | |- _ -> _ => intro
    | |- forall _, _ => intro
    | |- ~ _ => intro
    | H : exists _, _ |- _ => destruct H
    | H : _ /\ _ |- _ => destruct H
    end;
  first [ done
        | discriminate
        | by simplify_eq
        | by (repeat match goal with
                     | H : Readable _ = Readable _ |- _ => injection H as <-
                     end; congruence)
        | match goal with H : _ ∈ _ |- _ => entry_not_in H end
        | by entry_in
        | by (eexists; entry_in)
        | by (eexists; left)
        | by (eexists; right)
        | by repeat eexists ].

Ltac run_main inp :=
  destruct inp as [[| |rows] [| |usage] [| |billing]];
  cbn [all_readable file_access customer_data usage_data billing_records andb];
  unfold main, run_clean_customer_data, run_deduplicate_usage_data,
    run_aggregate_billing_data, run_create_final_report, validate_input_files,
    required_files, mbind, logged_bind;
  cbn [validate_loop presence file_exists file_access negb and_then log_message
       raise finish open_read fst snd app customer_data usage_data billing_records
       mbind logged_bind].

Ltac step_main :=
  cbn [and_then log_message raise finish of_result fst snd app last].

(** The log and the end of a run, input by input and stage by stage. *)
Lemma main_cases inp :
  let run := main SCRIPT_DIR now_title now_footer today
               float_of_str str_of_float format_2f inp in
  let cleaned := exists rows c,
                   customer_data inp = Readable rows
                   /\ clean_customer_data rows = Ok c in
  let aggregated := exists stored b,
                      billing_records inp = Readable stored
                      /\ aggregate_billing_data float_of_str str_of_float
                           (readlines stored) = Ok b in
  ((INFO, "Starting customer data cleaning process") ∈ run.1 <->
   all_readable inp = true)
  /\ ((INFO, "Starting usage data deduplication") ∈ run.1 <->
      all_readable inp = true /\ cleaned)
  /\ ((INFO, "Starting billing data aggregation") ∈ run.1 <->
      all_readable inp = true /\ cleaned)
  /\ ((INFO, "Creating final consolidated report") ∈ run.1 <->
      all_readable inp = true /\ cleaned /\ aggregated)
  /\ ((INFO, "ETL pipeline completed") ∈ run.1 <-> exists o, run.2 = Done o)
  /\ (forall o, run.2 = Done o -> last run.1 = Some (INFO, "ETL pipeline completed"))
  /\ ((exists message, (ERROR, message) ∈ run.1) <-> all_readable inp = false)
  /\ (forall e, run.2 = Failed (Raised e) -> all_readable inp = true)
  /\ (all_readable inp = false ->
      exists message,
        run.2 = Failed (FileNotFoundError message)
        \/ run.2 = Failed (PermissionError message)).
Proof.
  run_main inp.
  all: try solve [leaf].
  destruct (clean_customer_data rows) as [c|e] eqn:Hclean; step_main;
    [|solve [leaf]].
  destruct (aggregate_billing_data _ _ _) as [b|e] eqn:Hagg; step_main;
    [|solve [leaf]].
  destruct (create_final_report _ _ _ _ _ _ _ _) as [r|e] eqn:Hrep; step_main;
    solve [leaf].
Qed.

End MainFacts.

(** The stages of a run start in turn, and each one only when all that comes
    before it has ended normally.  The Cleanser starts exactly when the three
    input files are there and may be read; the Deduplicator and the
    Aggregator start exactly when, besides, the Cleanser has ended normally;
    the Report Composer starts exactly when, besides, the Aggregator has
    ended normally.  A customer row of the wrong length thus keeps the usage
    and billing files from being processed at all. *)
Theorem main_stages_in_turn SCRIPT_DIR now_title now_footer today
    float_of_str str_of_float format_2f inp :
  let run := main SCRIPT_DIR now_title now_footer today
               float_of_str str_of_float format_2f inp in
  let cleaned := exists rows c,
                   customer_data inp = Readable rows
                   /\ clean_customer_data rows = Ok c in
  let aggregated := exists stored b,
                      billing_records inp = Readable stored
                      /\ aggregate_billing_data float_of_str str_of_float
                           (readlines stored) = Ok b in
  ((INFO, "Starting customer data cleaning process") ∈ run.1 <->
   all_readable inp = true)
  /\ ((INFO, "Starting usage data deduplication") ∈ run.1 <->
      all_readable inp = true /\ cleaned)
  /\ ((INFO, "Starting billing data aggregation") ∈ run.1 <->
      all_readable inp = true /\ cleaned)
  /\ ((INFO, "Creating final consolidated report") ∈ run.1 <->
      all_readable inp = true /\ cleaned /\ aggregated).
Proof.
  intros run cleaned aggregated.
  destruct (main_cases SCRIPT_DIR now_title now_footer today
              float_of_str str_of_float format_2f inp)
    as (H1 & H2 & H3 & H4 & _).
  split; [exact H1|]. split; [exact H2|]. split; [exact H3 | exact H4].
Qed.

(** The last entry tells how the run ended: "ETL pipeline completed" is
    logged exactly when main ends normally, and it is the last entry of the
    log then; a run that an exception ends never logs it. *)
Theorem main_completed_iff_done SCRIPT_DIR now_title now_footer today
    float_of_str str_of_float format_2f inp :
  let run := main SCRIPT_DIR now_title now_footer today
               float_of_str str_of_float format_2f inp in
  ((INFO, "ETL pipeline completed") ∈ run.1 <-> exists o, run.2 = Done o)
  /\ (forall o, run.2 = Done o -> last run.1 = Some (INFO, "ETL pipeline completed"))
  /\ (forall f, run.2 = Failed f -> (INFO, "ETL pipeline completed") ∉ run.1).
Proof.
  intros run.
  destruct (main_cases SCRIPT_DIR now_title now_footer today
              float_of_str str_of_float format_2f inp)
    as (_ & _ & _ & _ & H5 & H6 & _).
  split; [exact H5|]. split; [exact H6|].
  intros f Hf Hin. apply H5 in Hin as [o Ho]. fold run in Ho. congruence.
Qed.

(** Only the validator writes ERROR entries.  The log of a run holds an
    ERROR entry exactly when an input file is missing or may not be read, and
    the run then ends in FileNotFoundError or PermissionError; an exception
    raised inside a stage (a customer row of the wrong length, an amount that
    does not parse) ends the run without any ERROR entry in the log. *)
Theorem main_error_entries SCRIPT_DIR now_title now_footer today
    float_of_str str_of_float format_2f inp :
  let run := main SCRIPT_DIR now_title now_footer today
               float_of_str str_of_float format_2f inp in
  ((exists message, (ERROR, message) ∈ run.1) <-> all_readable inp = false)
  /\ (all_readable inp = false ->
      exists message,
        run.2 = Failed (FileNotFoundError message)
        \/ run.2 = Failed (PermissionError message))
  /\ (forall e message, run.2 = Failed (Raised e) -> (ERROR, message) ∉ run.1).
Proof.
  intros run.
  destruct (main_cases SCRIPT_DIR now_title now_footer today
              float_of_str str_of_float format_2f inp)
    as (_ & _ & _ & _ & _ & _ & H7 & H8 & H9).
  split; [exact H7|]. split; [exact H9|].
  intros e message He Hin. fold run in H8. specialize (H8 e He).
  assert (Hbad : all_readable inp = false) by (apply H7; by exists message).
  congruence.
Qed.

(** A run on the sample inputs, with a printer of floats that [float] reads
    back: the log of a complete run. *)
Example main_sample_run :
  exists files,
    main "/opt/etl" "2024-01-07 00:00:00" "2024-01-07 00:00:01" "20240107"
      float_of_digits (fun _ => "7") (fun _ => "7.00") sample_inputs
    = ( [ (INFO, "Starting Python ETL pipeline");
          (INFO, "Validating input files...");
          (INFO, "Validated file: /opt/etl/sample_data/customer_data.csv");
          (INFO, "Validated file: /opt/etl/sample_data/usage_data.txt");
          (INFO, "Validated file: /opt/etl/sample_data/billing_records.txt");
          (INFO, "All input files validated successfully");
          (INFO, "Starting customer data cleaning process");
          (INFO, "Customer data cleaning completed - Input: 3, Output: 2, Rejected: 1");
          (INFO, "Starting usage data deduplication");
          (INFO, "Deduplication completed - Removed 0 duplicates");
          (INFO, "Final usage records: 3");
          (INFO, "Starting billing data aggregation");
          (INFO, "Billing aggregation completed for 2 customers");
          (INFO, "Creating final consolidated report");
          (INFO, "Final report created: /opt/etl/output/telecom_daily_report_20240107.txt");
          (INFO, "ETL pipeline completed") ],
        Done files ).
Proof. eexists. vm_compute. reflexivity. Qed.

(** ** Fields and lines between the stages *)

Section SplitFacts.

Lemma split_nonempty sep s : split sep s <> [].
Proof.
  destruct s as [|c s]; [done|]. cbn [split].
  destruct (Ascii.eqb c sep); [done|]. by destruct (split sep s).
Qed.

Lemma concat_split sep s : String.concat (String sep "") (split sep s) = s.
Proof.
  induction s as [|c s IH]; [done|]. cbn [split].
  pose proof (split_nonempty sep s) as Hne.
  destruct (Ascii.eqb_spec c sep) as [->|Hc].
  - destruct (split sep s) as [|p ps] eqn:E; [done|].
    change (String.concat (String sep "") ("" :: p :: ps))
      with (String sep (String.concat (String sep "") (p :: ps))).
    by rewrite IH.
  - destruct (split sep s) as [|p ps] eqn:E; [done|].
    rewrite <- IH. by destruct ps.
Qed.

Lemma split_free sep s : Forall (fun p => free_of sep p = true) (split sep s).
Proof.
  unfold free_of. induction s as [|c s IH]; [by repeat constructor|]. cbn [split].
  destruct (Ascii.eqb_spec c sep) as [->|Hc]; [by constructor|].
  destruct (split sep s) as [|p ps]; inversion IH; subst.
  - repeat constructor. cbn [all_chars]. by rewrite (proj2 (Ascii.eqb_neq c sep) Hc).
  - constructor; [|done]. cbn [all_chars].
    by rewrite (proj2 (Ascii.eqb_neq c sep) Hc).
Qed.

Lemma split_prefix sep a t :
  free_of sep a = true -> split sep (a +:+ String sep t) = a :: split sep t.
Proof.
  unfold free_of. induction a as [|c a IH]; cbn [all_chars].
  - intros _. change ("" +:+ String sep t) with (String sep t).
    cbn [split]. by rewrite Ascii.eqb_refl.
  - intros H. apply andb_true_iff in H as [Hc Ha]. apply negb_true_iff in Hc.
    change (String c a +:+ String sep t) with (String c (a +:+ String sep t)).
    cbn [split]. by rewrite Hc, (IH Ha).
Qed.

Lemma split_all_chars p sep s :
  all_chars p s = true -> Forall (fun f => all_chars p f = true) (split sep s).
Proof.
  induction s as [|c s IH]; [by repeat constructor|]. cbn [all_chars split].
  intros H. apply andb_true_iff in H as [Hc Hs]. specialize (IH Hs).
  destruct (Ascii.eqb c sep); [by constructor|].
  destruct (split sep s) as [|f fs]; inversion IH; subst.
  - repeat constructor. cbn [all_chars]. by rewrite Hc.
  - constructor; [|done]. cbn [all_chars]. by rewrite Hc.
Qed.

Lemma lstrip_all_chars p s : all_chars p s = true -> all_chars p (lstrip s) = true.
Proof.
  induction s as [|c s IH]; [done|]. cbn [lstrip].
  destruct (isspace_char c); [|done]. cbn [all_chars].
  intros H. apply andb_true_iff in H as [_ H]. by apply IH.
Qed.

Lemma rstrip_all_chars p s : all_chars p s = true -> all_chars p (rstrip s) = true.
Proof.
  induction s as [|c s IH]; [done|]. cbn [all_chars rstrip].
  intros H. apply andb_true_iff in H as [Hc Hs]. specialize (IH Hs).
  destruct (rstrip s) as [|c' r].
  - destruct (isspace_char c); [done|]. cbn [all_chars]. by rewrite Hc.
  - cbn [all_chars] in *. by rewrite Hc, IH.
Qed.

Lemma rstrip_line_feed s : rstrip (s +:+ nl) = rstrip s.
Proof.
  induction s as [|c s IH]; [done|].
  change (String c s +:+ nl) with (String c (s +:+ nl)).
  cbn [rstrip]. by rewrite IH.
Qed.

Lemma strip_line_feed s : strip (s +:+ nl) = strip s.
Proof.
  unfold strip. induction s as [|c s IH]; [done|].
  change (String c s +:+ nl) with (String c (s +:+ nl)).
  cbn [lstrip]. destruct (isspace_char c); [exact IH|].
  change (String c (s +:+ nl)) with (String c s +:+ nl). apply rstrip_line_feed.
Qed.

End SplitFacts.

(** The fields of a billing line.  [line.strip().split("|")] always gives at
    least one field, no field holds a '|', and the fields joined by '|' are
    the line without its leading and trailing whitespace. *)
Theorem billing_fields_spec line :
  billing_fields line <> []
  /\ Forall (fun field => free_of "|" field = true) (billing_fields line)
  /\ String.concat "|" (billing_fields line) = strip line.
Proof.
  unfold billing_fields. split; [apply split_nonempty|].
  split; [apply split_free | apply concat_split].
Qed.

Lemma string_app_assoc a b c : (a +:+ b) +:+ c = a +:+ b +:+ c.
Proof.
  induction a as [|x a IH]; [done|].
  change ((String x a +:+ b) +:+ c = String x (a +:+ b +:+ c)).
  change (String x a +:+ b) with (String x (a +:+ b)).
  change (String x (a +:+ b) +:+ c) with (String x ((a +:+ b) +:+ c)).
  by rewrite IH.
Qed.

Section BillingFile.

Variable float_of_str : string -> option float.
Variable str_of_float : float -> string.

Lemma str_of_int_chars p z :
  (forall c, is_ascii_digit c = true -> p c = true) -> p "-"%char = true ->
  all_chars p (str_of_int z) = true.
Proof.
  intros Hdigit Hminus. unfold str_of_int.
  assert (Hu : forall d, all_chars p (NilEmpty.string_of_uint d) = true).
  { induction d; cbn [NilEmpty.string_of_uint all_chars]; [done|..];
      rewrite IHd, andb_true_r; by apply Hdigit. }
  assert (Hz : forall d, all_chars p (NilZero.string_of_uint d) = true).
  { intros d. destruct d; try apply Hu. cbn. rewrite andb_true_r. by apply Hdigit. }
  destruct (Z.to_int z); cbn [NilZero.string_of_int all_chars]; [apply Hz|].
  by rewrite Hminus, Hz.
Qed.

Lemma running_best_in {X} (better : X -> X -> bool) xs b :
  running_best better xs = Some b -> b ∈ xs.
Proof.
  destruct xs as [|x xs]; [done|]. cbn [running_best]. intros [= <-].
  revert x. induction xs as [|y xs IH]; intros x; [apply list_elem_of_here|].
  cbn [fold_left]. destruct (better y x).
  - apply list_elem_of_further, IH.
  - specialize (IH x). apply elem_of_cons in IH as [->|IH];
      [apply list_elem_of_here | by do 2 apply list_elem_of_further].
Qed.

(** The fields taken from a line of a file hold no line end. *)
Lemma file_line_fields lines line :
  file_lines lines -> line ∈ lines ->
  Forall (fun f => no_line_end f = true) (billing_fields line).
Proof.
  intros (init & rest & -> & Hinit & Hrest) Hin. unfold billing_fields.
  apply split_all_chars. fold (no_line_end (strip line)).
  assert (Hbody : forall b, no_line_end b = true -> no_line_end (strip b) = true)
    by (intros b Hb; by apply rstrip_all_chars, lstrip_all_chars).
  apply elem_of_app in Hin as [Hin|Hin].
  - rewrite Forall_forall in Hinit. destruct (Hinit _ Hin) as (body & Hb & ->).
    rewrite strip_line_feed. by apply Hbody.
  - destruct Hrest as [->|(z & -> & Hz & _)]; [by apply elem_of_nil in Hin|].
    apply list_elem_of_singleton in Hin as ->. by apply Hbody.
Qed.

Lemma nth_no_line_end i r :
  Forall (fun f => no_line_end f = true) r -> no_line_end (nth i r "") = true.
Proof.
  intros Hall. revert i.
  induction Hall as [|f r Hf _ IH]; intros [|i]; cbn [nth]; done.
Qed.

Lemma summary_line_terminated data c :
  (forall x, no_line_end (str_of_float x) = true) ->
  Forall (fun r => Forall (fun f => no_line_end f = true) r) data ->
  terminated (summary_line str_of_float (summary_of_rows float_of_str data c) )
  \/ c ∉ map row_customer data.
Proof.
  intros Hfloat Hdata.
  destruct (decide (c ∈ map row_customer data)) as [Hc|Hc]; [left | by right].
  pose proof (rows_of_nonempty _ _ Hc) as Hne.
  set (s := summary_of_rows float_of_str data c).
  exists (cust_id s +:+ "|" +:+ str_of_float (total_amount s) +:+ "|"
          +:+ str_of_num str_of_float (avg_amount s) +:+ "|"
          +:+ str_of_int (Z.of_nat (record_count s)) +:+ "|"
          +:+ str_of_float (min_amount s) +:+ "|" +:+ str_of_float (max_amount s)
          +:+ "|" +:+ last_billing_date s).
  split; [|unfold summary_line; by rewrite !string_app_assoc].
  assert (Hrows : Forall (fun r => Forall (fun f => no_line_end f = true) r)
                    (rows_of c data)).
  { apply Forall_forall. intros r Hr. apply list_elem_of_filter in Hr as [_ Hr].
    rewrite Forall_forall in Hdata. by apply Hdata. }
  assert (Hcust : no_line_end (cust_id s) = true).
  { apply list_elem_of_fmap in Hc as (r & -> & Hr). cbn [s summary_of_rows cust_id].
    apply nth_no_line_end. rewrite Forall_forall in Hdata. by apply Hdata. }
  assert (Hdate : no_line_end (last_billing_date s) = true).
  { cbn [s summary_of_rows last_billing_date].
    destruct (running_best _ (map row_date (rows_of c data))) as [d|] eqn:E; [|done].
    apply running_best_in in E. apply list_elem_of_fmap in E as (r & -> & Hr).
    apply nth_no_line_end. rewrite Forall_forall in Hrows. by apply Hrows. }
  assert (Hint : forall z, no_line_end (str_of_int z) = true).
  { intros z. apply str_of_int_chars; [|done].
    intros ch. unfold is_ascii_digit. intros H. apply andb_true_iff in H as [H1 H2].
    apply Nat.leb_le in H1, H2.
    destruct (Ascii.eqb_spec ch LF) as [->|_]; [cbv in H1; lia|].
    destruct (Ascii.eqb_spec ch CR) as [->|_]; [cbv in H1; lia|]. done. }
  unfold no_line_end in *. rewrite !all_chars_app.
  rewrite Hcust, Hdate, !Hfloat, Hint. cbn [s summary_of_rows avg_amount str_of_num].
  by rewrite Hfloat.
Qed.

End BillingFile.

(** The aggregated billing file is read back as it was written: when the
    printed floats hold no line end, the lines that the Aggregator writes for
    the lines read from a billing file are, line by line, what the Report
    Composer reads from the written file. *)
Theorem aggregated_file_reads_back float_of_str str_of_float stored res :
  aggregate_billing_data float_of_str str_of_float (readlines stored) = Ok res ->
  (forall x, no_line_end (str_of_float x) = true) ->
  readlines (writelines (billing_file res)) = billing_file res.
Proof.
  intros Hrun Hfloat.
  pose proof (lines_of_file_lines _ (universal_newlines_no_CR stored)) as Hlines.
  fold (readlines stored) in Hlines.
  destruct (readlines stored) as [|header rest] eqn:Hread; [discriminate Hrun|].
  destruct (aggregate_billing_data_outcome float_of_str str_of_float) as (_ & Hiff & _).
  pose proof (proj2 (Hiff header rest) (ex_intro _ res Hrun)) as Hparse.
  rewrite (aggregate_billing_data_parses _ str_of_float header rest Hparse) in Hrun.
  injection Hrun as <-. cbn [billing_file].
  apply readlines_writelines.
  set (data := map billing_fields rest).
  assert (Hdata : Forall (fun r => Forall (fun f => no_line_end f = true) r) data).
  { apply Forall_fmap, Forall_forall. intros line Hline.
    apply (file_line_fields (header :: rest)); [done | by apply list_elem_of_further]. }
  exists (billing_header
            :: map (summary_line str_of_float)
                 (map (summary_of_rows float_of_str data)
                    (first_occurrences (map row_customer data)))), [].
  rewrite app_nil_r. split; [done|]. split; [|by left].
  constructor.
  - eexists. split; [|reflexivity]. reflexivity.
  - apply Forall_fmap, Forall_fmap, Forall_forall. intros c Hc.
    pose proof (proj1 (first_occurrences_elem _ _) Hc) as Hc'.
    destruct (summary_line_terminated float_of_str str_of_float data c Hfloat Hdata)
      as [H|H]; [exact H | by destruct (H Hc')].
Qed.

Lemma aggregated_file_reads_back_witness :
  exists res,
    aggregate_billing_data float_of_digits (fun _ => "7")
      (readlines (writelines sample_billing)) = Ok res
    /\ (forall x, no_line_end ((fun _ : float => "7") x) = true)
    /\ readlines (writelines (billing_file res)) = billing_file res.
Proof.
  eexists. split; [reflexivity|].
  assert (H : forall x, no_line_end ((fun _ : float => "7") x) = true) by done.
  split; [exact H|].
  exact (aggregated_file_reads_back float_of_digits (fun _ => "7")
           (writelines sample_billing) _ eq_refl H).
Defined.

Section Revenue.

Variable float_of_str : string -> option float.
Variable str_of_float : float -> string.

Lemma summary_line_total s :
  free_of "|" (cust_id s) = true ->
  free_of "|" (str_of_float (total_amount s)) = true ->
  index (split "|" (summary_line str_of_float s)) 1
  = Ok (str_of_float (total_amount s)).
Proof.
  intros Hc Ht. unfold summary_line.
  assert (Hbar : forall x, "|" +:+ x = String "|" x) by done.
  rewrite (Hbar (str_of_float (total_amount s) +:+ _)).
  rewrite (split_prefix _ _ _ Hc).
  rewrite (Hbar (str_of_num str_of_float (avg_amount s) +:+ _)).
  by rewrite (split_prefix _ _ _ Ht).
Qed.

Lemma revenue_terms_of_summaries ss :
  Forall (fun s => free_of "|" (cust_id s) = true
                   /\ free_of "|" (str_of_float (total_amount s)) = true
                   /\ float_of_str (str_of_float (total_amount s))
                      = Some (total_amount s)) ss ->
  revenue_terms float_of_str (map (summary_line str_of_float) ss)
  = Ok (map total_amount ss).
Proof.
  induction ss as [|s ss IH]; intros Hall; [done|].
  inversion Hall as [|? ? (Hc & Ht & Hback) Hrest]; subst.
  unfold revenue_terms in *. cbn [map map_result]. rewrite (IH Hrest).
  unfold mbind, result_bind. rewrite (summary_line_total _ Hc Ht). cbn [bind].
  unfold parse_float. by rewrite Hback.
Qed.

(** The sum of [create_final_report], which adds from the left, is taken over
    the terms of the generator, and raises what the generator raises. *)
Lemma sum_revenue_terms lines :
  sum_revenue float_of_str lines
  = (terms ← revenue_terms float_of_str lines;
     Ok (fold_left (fun acc x => num_add acc (Float x)) terms (Int 0))).
Proof.
  unfold sum_revenue, revenue_terms. generalize (Int 0).
  induction lines as [|line lines IH]; intros acc; [done|].
  cbn [for_each map_result]. unfold mbind, result_bind in *.
  destruct (index (split "|" line) 1) as [field|e]; [|done]. cbn [bind].
  destruct (parse_float float_of_str field) as [x|e]; [|done]. cbn [bind].
  rewrite IH.
  by destruct (map_result _ lines).
Qed.

End Revenue.

(** The revenue of the report is computed over the customers' totals.  On the
    file that the Aggregator has written, when every printed total holds no
    '|' and is read back by [float] as the total it prints, the floats that
    the Report Composer hands to [sum] (the second field of every line after
    the header) are exactly the totals of the summaries, one per customer, in
    the order of the summaries; this holds whichever way [sum] adds them. *)
Theorem report_revenue_terms_are_totals float_of_str str_of_float header rest res :
  aggregate_billing_data float_of_str str_of_float (header :: rest) = Ok res ->
  Forall (fun s => free_of "|" (str_of_float (total_amount s)) = true
                   /\ float_of_str (str_of_float (total_amount s))
                      = Some (total_amount s)) (summaries res) ->
  revenue_terms float_of_str (from_1 (billing_file res))
  = Ok (map total_amount (summaries res)).
Proof.
  intros Hrun Hprint.
  destruct (aggregate_billing_data_outcome float_of_str str_of_float) as (_ & Hiff & _).
  pose proof (proj2 (Hiff header rest) (ex_intro _ res Hrun)) as Hparse.
  rewrite (aggregate_billing_data_parses _ str_of_float header rest Hparse) in Hrun.
  injection Hrun as <-. cbn [billing_file summaries from_1 tail] in *.
  apply revenue_terms_of_summaries.
  apply Forall_forall. intros s Hs.
  rewrite Forall_forall in Hprint. destruct (Hprint s Hs) as [Ht Hback].
  split; [|done].
  apply list_elem_of_fmap in Hs as (c & -> & Hc). cbn [summary_of_rows cust_id].
  pose proof (proj1 (first_occurrences_elem _ _) Hc) as Hc'.
  apply list_elem_of_fmap in Hc' as (r & -> & Hr).
  apply list_elem_of_fmap in Hr as (line & -> & _).
  unfold row_customer. pose proof (split_free "|" (strip line)) as Hfree.
  fold (billing_fields line) in Hfree. revert Hfree.
  generalize (billing_fields line). intros fields Hfree.
  destruct Hfree; done.
Qed.

Lemma report_revenue_terms_are_totals_witness :
  exists res,
    aggregate_billing_data float_of_digits digits_of_float
      ("customer_id|amount|billing_date" :: three_customers_billing)
    = Ok res
    /\ map cust_id (summaries res) = ["C1"; "C2"; "C3"]
    /\ map (fun s => digits_of_float (total_amount s)) (summaries res)
       = ["30"; "0"; "5"]
    /\ Forall (fun s => free_of "|" (digits_of_float (total_amount s)) = true
                        /\ float_of_digits (digits_of_float (total_amount s))
                           = Some (total_amount s)) (summaries res)
    /\ revenue_terms float_of_digits (from_1 (billing_file res))
       = Ok (map total_amount (summaries res)).
Proof.
  eexists. split; [reflexivity|].
  split; [reflexivity|]. split; [reflexivity|].
  match goal with
  | |- ?P /\ _ => assert (H : P) by (repeat constructor)
  end.
  split; [exact H|].
  exact (report_revenue_terms_are_totals float_of_digits digits_of_float
           "customer_id|amount|billing_date" three_customers_billing
           _ eq_refl H).
Defined.
